(** * The passkey demo page (src/pages/index.tsx)

    A shallow embedding of the three handlers of the [Home] component,
    [signMessage], [createSubOrgAndWallet] and [login], together with the
    part of the render function that decides which forms and which results
    are shown.

    Within one run a handler is strictly sequential: every [await]
    suspends it until the awaited call settles.  A run is therefore
    modelled as a computation over the React state of the page that also
    produces the ordered log of every call it makes to a collaborator (the
    Turnkey clients, viem, axios, the abstractionkit library, the bundler
    and the paymaster) and of every state setter it invokes.  State that
    was set before an exception is thrown stays set, as it does in React.
    Several runs may be in flight at once, since no form is disabled while
    a run waits; the section on handler runs in flight models how their
    setters interleave. *)

From Stdlib Require Import String Ascii List ZArith Bool.
Import ListNotations.
Local Open Scope string_scope.

(** ** JavaScript values that the page observes *)

(** A thrown value: an [Error] instance with its [name] and [message];
    [undefined] or [null] (a promise may reject with either); or any other
    value, given by the text [String(v)] produces for it. *)
Inductive JsThrown : Type :=
| JsError (name message : string)
| JsOther (text : string)
| JsUndefined
| JsNull.

(** [error instanceof Error ? error.message : String(error)] *)
Definition message_or_string (error : JsThrown) : string :=
  match error with
  | JsError _ message => message
  | JsOther text => text
  | JsUndefined => "undefined"
  | JsNull => "null"
  end.

(** The outcome of a call: it returns a value or throws (for an awaited
    promise: it fulfils or rejects). *)
Inductive Outcome (A : Type) : Type :=
| Returned (a : A)
| Threw (e : JsThrown).
Arguments Returned {A} a.
Arguments Threw {A} e.

(** [e.toString()]; for an [Error] this is [Error.prototype.toString].
    [undefined] and [null] have no properties: reading [toString] from
    them throws a [TypeError] (V8's wording of the message). *)
Definition toString (e : JsThrown) : Outcome string :=
  match e with
  | JsError name message =>
      Returned (if String.eqb name "" then message
                else if String.eqb message "" then name
                else name ++ ": " ++ message)
  | JsOther text => Returned text
  | JsUndefined =>
      Threw (JsError "TypeError"
               "Cannot read properties of undefined (reading 'toString')")
  | JsNull =>
      Threw (JsError "TypeError"
               "Cannot read properties of null (reading 'toString')")
  end.

(** Truthiness of a string, and of an optional string property. *)
Definition truthy (s : string) : bool := negb (String.eqb s "").

Definition truthy_opt (o : option string) : bool :=
  match o with
  | Some s => truthy s
  | None => false
  end.

(** ** Data model *)

Definition Address := string.

(** [TWalletDetails] of [../types], with the three properties the page
    reads and writes. *)
Record TWalletDetails : Type := mkWallet {
  id : string;
  address : Address;
  subOrgId : string
}.

(** The [SafeAccount] object; [accountAddress] is the only property the page
    reads.  Its methods are the services [createUserOperation] and
    [sendUserOperation] below, which receive the object. *)
Record SafeAccount : Type := mkSafe {
  accountAddress : Address
}.

Record MetaTransaction : Type := mkTx {
  to : Address;
  value : Z;
  data : string
}.

(** abstractionkit's [UserOperationV7].  The page writes [signature] and
    passes everything else along untouched. *)
Record UserOperation : Type := mkOp {
  sender : Address;
  nonce : Z;
  factory : option Address;
  factoryData : option string;
  callData : string;
  callGasLimit : Z;
  verificationGasLimit : Z;
  preVerificationGas : Z;
  maxFeePerGas : Z;
  maxPriorityFeePerGas : Z;
  paymaster : option Address;
  paymasterVerificationGasLimit : option Z;
  paymasterPostOpGasLimit : option Z;
  paymasterData : option string;
  signature : string
}.

(** [userOperation.signature = s] *)
Definition set_signature (op : UserOperation) (s : string) : UserOperation :=
  {| sender := sender op;
     nonce := nonce op;
     factory := factory op;
     factoryData := factoryData op;
     callData := callData op;
     callGasLimit := callGasLimit op;
     verificationGasLimit := verificationGasLimit op;
     preVerificationGas := preVerificationGas op;
     maxFeePerGas := maxFeePerGas op;
     maxPriorityFeePerGas := maxPriorityFeePerGas op;
     paymaster := paymaster op;
     paymasterVerificationGasLimit := paymasterVerificationGasLimit op;
     paymasterPostOpGasLimit := paymasterPostOpGasLimit op;
     paymasterData := paymasterData op;
     signature := s |}.


(** The result of [SafeAccount.getUserOperationEip712Data]. *)
Record Eip712Data : Type := mkEip712 {
  domain : string;
  types : string;
  messageValue : string
}.

(** The custom viem account that [createAccount] of [@turnkey/viem] returns,
    and the wallet client built around it. *)
Record ViemAccount : Type := mkViemAccount {
  viemAddress : Address
}.

Record WalletClient : Type := mkClient {
  account : ViemAccount;
  chain : string
}.

Definition sepolia : string := "sepolia".

Definition createWalletClient (a : ViemAccount) : WalletClient :=
  {| account := a; chain := sepolia |}.

Definition zeroAddress : Address :=
  "0x0000000000000000000000000000000000000000".

(** What [smartWallet.sendUserOperation] resolves to; its [included()]
    method is the service [included] below. *)
Record SendUseroperationResponse : Type := mkSendResponse {
  userOperationHash : string
}.

Record TransactionReceipt : Type := mkReceipt {
  transactionHash : string
}.

Record UserOperationReceiptResult : Type := mkReceiptResult {
  receipt : TransactionReceipt
}.

(** The passkey that [createUserPasskey] resolves to. *)
Record Passkey : Type := mkPasskey {
  encodedChallenge : string;
  attestation : option string
}.

(** The body of the POST to [/api/createSubOrg]. *)
Record CreateSubOrgRequest : Type := mkRequest {
  req_subOrgName : string;
  req_challenge : option string;
  req_attestation : option string
}.

Record LoginResponse : Type := mkLogin {
  organizationId : string
}.

Record Wallet : Type := mkW {
  walletId : string
}.

Record WalletAccount : Type := mkAcc {
  acc_address : Address
}.

(** The process environment variables read at module load. *)
Record Config : Type := mkConfig {
  bundlerUrl : string;
  chainId : Z;
  paymasterUrl : string;
  nodeUrl : string;
  sponsorshipId : string
}.

(** ** Collaborators *)

(** The static functions of abstractionkit's [SafeAccount] that the page
    calls.  They are synchronous and take no part in any network exchange;
    like every JavaScript call they may throw. *)
Record AbstractionKit : Type := mkKit {
  initializeNewAccount : list Address -> Outcome SafeAccount;
  getUserOperationEip712Data : UserOperation -> Z -> Outcome Eip712Data;
  formatEip712SignaturesToUseroperationSignature :
    list Address -> list string -> Outcome string
}.

(** The user session object of the Turnkey browser client. *)
Record UserSession : Type := mkSession {
  getWallets : Outcome (option (list Wallet));
  getWalletAccounts : string -> string -> Outcome (option (list WalletAccount))
}.

(** [passkeyClient] of [useTurnkey()]. *)
Record PasskeyClient : Type := mkPasskeyClient {
  createUserPasskey : string -> Outcome (option Passkey);
  passkeyLogin : Outcome (option LoginResponse)
}.

(** [turnkey] of [useTurnkey()]. *)
Record Turnkey : Type := mkTurnkey {
  currentUserSession : Outcome (option UserSession)
}.

(** Everything outside the page that answers an awaited call during one run
    of a handler.  Each call is made at most once per run, so a function of
    the call's arguments describes every possible answer. *)
Record Services : Type := mkServices {
  passkeyClient : option PasskeyClient;
  turnkey : option Turnkey;
  toLocaleString : string;
  axios_post : string -> CreateSubOrgRequest -> Outcome TWalletDetails;
  createAccount : string -> Address -> Address -> Outcome ViemAccount;
  createUserOperation :
    SafeAccount -> list MetaTransaction -> string -> string ->
    Outcome UserOperation;
  createSponsorPaymasterUserOperation :
    string -> UserOperation -> string -> string ->
    Outcome (UserOperation * option string);
  signTypedData : WalletClient -> Eip712Data -> string -> Outcome string;
  sendUserOperation :
    SafeAccount -> UserOperation -> string ->
    Outcome SendUseroperationResponse;
  included : SendUseroperationResponse -> Outcome UserOperationReceiptResult
}.

(** ** The log of a run *)

Inductive ConsoleArg : Type :=
| CStr (s : string)
| CThrown (e : JsThrown).

Inductive Event : Type :=
(* state setters *)
| EvSetWallet (w : TWalletDetails)
| EvSetSmartWallet (s : SafeAccount)
| EvSetTxHash (h : string)
| EvSetUserOpHash (h : string)
(* signMessage *)
| EvCreateAccount (organization signWith ethereumAddress : string)
| EvCreateUserOperation
    (s : SafeAccount) (txs : list MetaTransaction) (node bundler : string)
| EvCreateSponsorPaymasterUserOperation
    (paymasterRpc : string) (op : UserOperation) (bundler sponsorship : string)
| EvGetUserOperationEip712Data (op : UserOperation) (chain : Z)
| EvSignTypedData (client : WalletClient) (d : Eip712Data) (primaryType : string)
| EvFormatEip712Signatures (owners : list Address) (signatures : list string)
| EvSendUserOperation (s : SafeAccount) (op : UserOperation) (bundler : string)
| EvIncluded (r : SendUseroperationResponse)
(* createSubOrgAndWallet *)
| EvCreateUserPasskey (rpId rpName userName userDisplayName : string)
| EvAxiosPost (url : string) (body : CreateSubOrgRequest)
| EvInitializeNewAccount (owners : list Address)
(* login *)
| EvLogin
| EvCurrentUserSession
| EvGetWallets
| EvGetWalletAccounts (organization wallet : string)
(* what the user is told *)
| EvConsoleError (args : list ConsoleArg)
| EvAlert (text : string).

(** ** The page state and the handler monad *)

Record Page : Type := mkPage {
  wallet : option TWalletDetails;
  smartWallet : option SafeAccount;
  txHash : string;
  userOpHash : string
}.

(** [useState] initial values. *)
Definition initialPage : Page :=
  {| wallet := None; smartWallet := None; txHash := ""; userOpHash := "" |}.

(** A handler: from the page state to its outcome, the page state it leaves
    and the log of what it did, oldest first. *)
Definition Run (A : Type) : Type := Page -> Outcome A * Page * list Event.

Definition ret {A} (a : A) : Run A := fun p => (Returned a, p, []).

Definition throw {A} (e : JsThrown) : Run A := fun p => (Threw e, p, []).

Definition bind {A B} (m : Run A) (k : A -> Run B) : Run B :=
  fun p =>
    match m p with
    | (Returned a, p1, l1) =>
        match k a p1 with
        | (r, p2, l2) => (r, p2, (l1 ++ l2)%list)
        end
    | (Threw e, p1, l1) => (Threw e, p1, l1)
    end.

(** [try { m } catch (e) { h e }] *)
Definition tryCatch {A} (m : Run A) (h : JsThrown -> Run A) : Run A :=
  fun p =>
    match m p with
    | (Returned a, p1, l1) => (Returned a, p1, l1)
    | (Threw e, p1, l1) =>
        match h e p1 with
        | (r, p2, l2) => (r, p2, (l1 ++ l2)%list)
        end
    end.

Declare Scope run_scope.
Delimit Scope run_scope with run.
Notation "x <- m ;; k" := (bind m (fun x => k))
  (at level 61, m at next level, right associativity) : run_scope.
Notation "m ;; k" := (bind m (fun _ => k))
  (at level 61, right associativity) : run_scope.
Local Open Scope run_scope.

Definition emit (ev : Event) : Run unit := fun p => (Returned tt, p, [ev]).

(** A call to a collaborator: logged, then it returns or throws. *)
Definition call {A} (ev : Event) (r : Outcome A) : Run A :=
  fun p => (r, p, [ev]).

Definition getPage : Run Page := fun p => (Returned p, p, []).

Definition setWallet (w : TWalletDetails) : Run unit :=
  fun p =>
    (Returned tt,
     {| wallet := Some w; smartWallet := smartWallet p;
        txHash := txHash p; userOpHash := userOpHash p |},
     [EvSetWallet w]).

Definition setSmartWallet (s : SafeAccount) : Run unit :=
  fun p =>
    (Returned tt,
     {| wallet := wallet p; smartWallet := Some s;
        txHash := txHash p; userOpHash := userOpHash p |},
     [EvSetSmartWallet s]).

Definition setTxHash (h : string) : Run unit :=
  fun p =>
    (Returned tt,
     {| wallet := wallet p; smartWallet := smartWallet p;
        txHash := h; userOpHash := userOpHash p |},
     [EvSetTxHash h]).

Definition setUserOpHash (h : string) : Run unit :=
  fun p =>
    (Returned tt,
     {| wallet := wallet p; smartWallet := smartWallet p;
        txHash := txHash p; userOpHash := h |},
     [EvSetUserOpHash h]).

Definition alert (text : string) : Run unit := emit (EvAlert text).

Definition console_error (args : list ConsoleArg) : Run unit :=
  emit (EvConsoleError args).

(** Projections of a finished run. *)
Definition outcome_of {A} (r : Outcome A * Page * list Event) : Outcome A :=
  fst (fst r).
Definition page_of {A} (r : Outcome A * Page * list Event) : Page :=
  snd (fst r).
Definition log_of {A} (r : Outcome A * Page * list Event) : list Event :=
  snd r.

(** ** The handlers *)

Section Handlers.

Variable kit : AbstractionKit.
Variable cfg : Config.
Variable sv : Services.

(** The [try] block of [signMessage]. *)
Definition signMessage_try : Run unit :=
  setTxHash "" ;;
  setUserOpHash "" ;;
  p <- getPage ;;
  match wallet p, smartWallet p with
  | Some w, Some sw =>
      viemAccount <-
        call (EvCreateAccount (subOrgId w) (address w) (address w))
             (createAccount sv (subOrgId w) (address w) (address w)) ;;
      let viemClient := createWalletClient viemAccount in
      let transaction :=
        {| to := zeroAddress; value := 0%Z; data := "0x" |} in
      userOperation <-
        call (EvCreateUserOperation sw [transaction]
                (nodeUrl cfg) (bundlerUrl cfg))
             (createUserOperation sv sw [transaction]
                (nodeUrl cfg) (bundlerUrl cfg)) ;;
      paymasterUserOp <-
        call (EvCreateSponsorPaymasterUserOperation (paymasterUrl cfg)
                userOperation (bundlerUrl cfg) (sponsorshipId cfg))
             (createSponsorPaymasterUserOperation sv (paymasterUrl cfg)
                userOperation (bundlerUrl cfg) (sponsorshipId cfg)) ;;
      let userOperation := fst paymasterUserOp in
      eip712 <-
        call (EvGetUserOperationEip712Data userOperation (chainId cfg))
             (getUserOperationEip712Data kit userOperation (chainId cfg)) ;;
      eip712Signature <-
        call (EvSignTypedData viemClient eip712 "SafeOp")
             (signTypedData sv viemClient eip712 "SafeOp") ;;
      formatted <-
        call (EvFormatEip712Signatures [address w] [eip712Signature])
             (formatEip712SignaturesToUseroperationSignature kit
                [address w] [eip712Signature]) ;;
      let userOperation := set_signature userOperation formatted in
      sendUserOpResponse <-
        call (EvSendUserOperation sw userOperation (bundlerUrl cfg))
             (sendUserOperation sv sw userOperation (bundlerUrl cfg)) ;;
      setUserOpHash (userOperationHash sendUserOpResponse) ;;
      receiptResult <-
        call (EvIncluded sendUserOpResponse)
             (included sv sendUserOpResponse) ;;
      setTxHash (transactionHash (receipt receiptResult))
  | _, _ => throw (JsError "Error" "wallet not found")
  end.

(** The [catch] block of [signMessage]. *)
Definition signMessage_catch (error : JsThrown) : Run unit :=
  console_error [CStr "Error:"; CThrown error] ;;
  alert ("Failed to submit user operation: " ++ message_or_string error).

Definition signMessage : Run unit :=
  tryCatch signMessage_try signMessage_catch.


(** [s.replaceAll(a, b)] for one-character [a] and [b]. *)
Fixpoint replaceAll (a b : ascii) (s : string) : string :=
  match s with
  | EmptyString => EmptyString
  | String c rest =>
      String (if Ascii.eqb c a then b else c) (replaceAll a b rest)
  end.

Definition humanReadableDateTime : string :=
  replaceAll ":" "." (replaceAll "/" "-" (toLocaleString sv)).

(** [credential?.encodedChallenge] and [credential?.attestation] *)
Definition encodedChallenge_of (credential : option Passkey) : option string :=
  option_map encodedChallenge credential.

Definition attestation_of (credential : option Passkey) : option string :=
  match credential with
  | Some c => attestation c
  | None => None
  end.

(** Truthiness of an optional object. *)
Definition present {A} (o : option A) : bool :=
  match o with
  | Some _ => true
  | None => false
  end.

(** [createSubOrgAndWallet] returns [false] or nothing ([undefined]); it has
    no [try], so a rejected promise rejects the handler. *)
Definition createSubOrgAndWallet : Run (option bool) :=
  let subOrgName := "Turnkey Viem+Passkey Demo - " ++ humanReadableDateTime in
  credential <-
    match passkeyClient sv with
    | Some client =>
        call (EvCreateUserPasskey "localhost" "Turnkey Viem Passkey Demo"
                subOrgName subOrgName)
             (createUserPasskey client subOrgName)
    | None => ret None
    end ;;
  if negb (truthy_opt (encodedChallenge_of credential))
     || negb (present (attestation_of credential))
  then ret (Some false)
  else
    let body :=
      {| req_subOrgName := subOrgName;
         req_challenge := encodedChallenge_of credential;
         req_attestation := attestation_of credential |} in
    response <-
      call (EvAxiosPost "/api/createSubOrg" body)
           (axios_post sv "/api/createSubOrg" body) ;;
    smartAccount <-
      call (EvInitializeNewAccount [address response])
           (initializeNewAccount kit [address response]) ;;
    setSmartWallet smartAccount ;;
    setWallet response ;;
    ret None.

(** Reading a property of [undefined] (V8's wording of the message). *)
Definition property_of_undefined (property : string) : JsThrown :=
  JsError "TypeError"
    ("Cannot read properties of undefined (reading '" ++ property ++ "')").

(** [walletsResponse?.wallets[0].walletId]: the optional chain stops at an
    undefined response, but element 0 of an empty array is [undefined] and
    reading [walletId] from it throws. *)
Definition first_walletId (walletsResponse : option (list Wallet))
  : Outcome (option string) :=
  match walletsResponse with
  | None => Returned None
  | Some [] => Threw (property_of_undefined "walletId")
  | Some (w :: _) => Returned (Some (walletId w))
  end.

(** [walletAccountsResponse?.accounts[0].address], likewise. *)
Definition first_address (walletAccountsResponse : option (list WalletAccount))
  : Outcome (option Address) :=
  match walletAccountsResponse with
  | None => Returned None
  | Some [] => Threw (property_of_undefined "address")
  | Some (a :: _) => Returned (Some (acc_address a))
  end.

(** Evaluation of an expression that may throw and calls nobody. *)
Definition pure_expr {A} (r : Outcome A) : Run A := fun p => (r, p, []).

(** [if (!v) { return; } k v] for an optional string [v]. *)
Definition unless_falsy (v : option string) (k : string -> Run unit) : Run unit :=
  match v with
  | Some s => if truthy s then k s else ret tt
  | None => ret tt
  end.

(** The [try] block of [login]. *)
Definition login_try : Run unit :=
  loginResponse <-
    match passkeyClient sv with
    | Some client => call EvLogin (passkeyLogin client)
    | None => ret None
    end ;;
  unless_falsy (option_map organizationId loginResponse) (fun organization =>
  currentSession <-
    match turnkey sv with
    | Some t => call EvCurrentUserSession (currentUserSession t)
    | None => ret None
    end ;;
  match currentSession with
  | None => ret tt
  | Some session =>
      walletsResponse <- call EvGetWallets (getWallets session) ;;
      firstWalletId <- pure_expr (first_walletId walletsResponse) ;;
      unless_falsy firstWalletId (fun walletId =>
      walletAccountsResponse <-
        call (EvGetWalletAccounts organization walletId)
             (getWalletAccounts session organization walletId) ;;
      firstAddress <- pure_expr (first_address walletAccountsResponse) ;;
      unless_falsy firstAddress (fun accountAddress =>
      setWallet {| id := walletId;
                   address := accountAddress;
                   subOrgId := organization |} ;;
      smartAccount <-
        call (EvInitializeNewAccount [accountAddress])
             (initializeNewAccount kit [accountAddress]) ;;
      setSmartWallet smartAccount))
  end).

(** The [catch] block of [login].  When [e.toString()] throws, the
    exception leaves the handler: nothing is logged or alerted. *)
Definition login_catch (e : JsThrown) : Run unit :=
  text <- pure_expr (toString e) ;;
  let message := "caught error: " ++ text in
  console_error [CStr message] ;;
  alert message.

Definition login : Run unit := tryCatch login_try login_catch.

End Handlers.

(** ** What the render function shows *)

(** [{!wallet && ...}]: the create and login forms. *)
Definition shows_account_forms (p : Page) : bool := negb (present (wallet p)).

(** [{wallet !== null && ...}]: the submit form. *)
Definition shows_submit_form (p : Page) : bool := present (wallet p).

(** [{userOpHash && ...}] and [{txHash && ...}]: a result is on screen only
    while its state string is non-empty. *)
Definition shown_userOpHash (p : Page) : option string :=
  if truthy (userOpHash p) then Some (userOpHash p) else None.

Definition shown_txHash (p : Page) : option string :=
  if truthy (txHash p) then Some (txHash p) else None.

(** ** The three forms *)

(** The forms of the page, each with its handler. *)
Inductive Trigger : Type := SubmitCreate | SubmitLogin | SubmitSign.

(** The page and the log left by one handler run. *)
Definition handle (kit : AbstractionKit) (cfg : Config) (sv : Services)
    (t : Trigger) (p : Page) : Page * list Event :=
  match t with
  | SubmitCreate =>
      (page_of (createSubOrgAndWallet kit sv p),
       log_of (createSubOrgAndWallet kit sv p))
  | SubmitLogin => (page_of (login kit sv p), log_of (login kit sv p))
  | SubmitSign =>
      (page_of (signMessage kit cfg sv p), log_of (signMessage kit cfg sv p))
  end.

(** ** The page state as a function of the log *)

Definition apply_event (p : Page) (ev : Event) : Page :=
  match ev with
  | EvSetWallet w =>
      {| wallet := Some w; smartWallet := smartWallet p;
         txHash := txHash p; userOpHash := userOpHash p |}
  | EvSetSmartWallet s =>
      {| wallet := wallet p; smartWallet := Some s;
         txHash := txHash p; userOpHash := userOpHash p |}
  | EvSetTxHash h =>
      {| wallet := wallet p; smartWallet := smartWallet p;
         txHash := h; userOpHash := userOpHash p |}
  | EvSetUserOpHash h =>
      {| wallet := wallet p; smartWallet := smartWallet p;
         txHash := txHash p; userOpHash := h |}
  | _ => p
  end.

(** The page state after the events of [l] have happened, in order. *)
Definition replay (l : list Event) (p : Page) : Page :=
  fold_left apply_event l p.

(** The page [p] with its two session fields replaced. *)
Definition with_session (p : Page) (w : option TWalletDetails)
    (s : option SafeAccount) : Page :=
  {| wallet := w; smartWallet := s;
     txHash := txHash p; userOpHash := userOpHash p |}.

(** The session is consistent when its smart account, if any, is the one
    derived from the single address of its wallet. *)
Definition session_consistent (kit : AbstractionKit) (p : Page) : Prop :=
  forall s,
    smartWallet p = Some s ->
    exists w,
      wallet p = Some w
      /\ initializeNewAccount kit [address w] = Returned s.

(** The calls that only read from the key service or start a ceremony. *)
Definition is_lookup (ev : Event) : bool :=
  match ev with
  | EvCreateUserPasskey _ _ _ _
  | EvLogin
  | EvCurrentUserSession
  | EvGetWallets
  | EvGetWalletAccounts _ _ => true
  | _ => false
  end.


(** ** Sample collaborators

    Concrete answers on which the handlers can be run. *)
Module Sample.

Definition kit : AbstractionKit :=
  {| initializeNewAccount := fun owners =>
       Returned {| accountAddress := "safe-of:" ++ String.concat "," owners |};
     getUserOperationEip712Data := fun op chain =>
       Returned {| domain := "Safe4337Module";
                   types := "SafeOp";
                   messageValue := callData op |};
     formatEip712SignaturesToUseroperationSignature := fun owners signatures =>
       Returned (String.concat "" signatures) |}.

(** A library whose account derivation, like an ABI encoder, throws on an
    owner that is not written as a hexadecimal address. *)
Definition strict_kit : AbstractionKit :=
  {| initializeNewAccount := fun owners =>
       if forallb (String.prefix "0x") owners
       then initializeNewAccount kit owners
       else Threw (JsError "Error" "invalid address");
     getUserOperationEip712Data := getUserOperationEip712Data kit;
     formatEip712SignaturesToUseroperationSignature :=
       formatEip712SignaturesToUseroperationSignature kit |}.

Definition config : Config :=
  {| bundlerUrl := "https://bundler.example";
     chainId := 11155111%Z;
     paymasterUrl := "https://paymaster.example";
     nodeUrl := "https://node.example";
     sponsorshipId := "policy-1" |}.

Definition owner : Address := "0xA11CE".
Definition stranger : Address := "0xB0B".

Definition details : TWalletDetails :=
  {| id := "wallet-1"; address := owner; subOrgId := "org-1" |}.

Definition safe_of (owners : list Address) : SafeAccount :=
  {| accountAddress := "safe-of:" ++ String.concat "," owners |}.

(** A session as [createSubOrgAndWallet] or [login] leaves it. *)
Definition session : Page :=
  {| wallet := Some details; smartWallet := Some (safe_of [owner]);
     txHash := ""; userOpHash := "" |}.

(** The same session after an earlier operation was included. *)
Definition session_after_inclusion : Page :=
  {| wallet := Some details; smartWallet := Some (safe_of [owner]);
     txHash := "0xOLDTX"; userOpHash := "0xOLDOP" |}.

(** A state in which the smart account was derived from another owner. *)
Definition mismatched_session : Page :=
  {| wallet := Some details; smartWallet := Some (safe_of [stranger]);
     txHash := ""; userOpHash := "" |}.

(** The builder's operation: no paymaster, placeholder gas values. *)
Definition built : UserOperation :=
  {| sender := "safe-of:0xA11CE"; nonce := 0%Z;
     factory := Some "0xFAC"; factoryData := Some "0x01";
     callData := "0xCA11"; callGasLimit := 100%Z;
     verificationGasLimit := 200%Z; preVerificationGas := 300%Z;
     maxFeePerGas := 7%Z; maxPriorityFeePerGas := 1%Z;
     paymaster := None; paymasterVerificationGasLimit := None;
     paymasterPostOpGasLimit := None; paymasterData := None;
     signature := "0xDUMMY" |}.

(** The paymaster's operation: every paymaster field filled, gas changed. *)
Definition sponsored : UserOperation :=
  {| sender := "safe-of:0xA11CE"; nonce := 0%Z;
     factory := Some "0xFAC"; factoryData := Some "0x01";
     callData := "0xCA11"; callGasLimit := 150%Z;
     verificationGasLimit := 250%Z; preVerificationGas := 350%Z;
     maxFeePerGas := 9%Z; maxPriorityFeePerGas := 2%Z;
     paymaster := Some "0xPAY"; paymasterVerificationGasLimit := Some 50%Z;
     paymasterPostOpGasLimit := Some 60%Z; paymasterData := Some "0xDA7A";
     signature := "0xDUMMY" |}.

Definition passkey : Passkey :=
  {| encodedChallenge := "challenge-1"; attestation := Some "attestation-1" |}.

(** A user session listing the given wallets and accounts. *)
Definition user_session (wallets : option (list Wallet))
    (accounts : option (list WalletAccount)) : UserSession :=
  {| getWallets := Returned wallets;
     getWalletAccounts := fun _ _ => Returned accounts |}.

(** Services in which the calls whose failure is of interest answer as
    given and every other call succeeds. *)
Definition services
    (login_answer : option LoginResponse)
    (current : option UserSession)
    (provisioned : Outcome TWalletDetails)
    (sponsor : Outcome (UserOperation * option string))
    (signed : Outcome string) : Services :=
  {| passkeyClient :=
       Some {| createUserPasskey := fun _ => Returned (Some passkey);
               passkeyLogin := Returned login_answer |};
     turnkey := Some {| currentUserSession := Returned current |};
     toLocaleString := "11/2/2026, 9:30:00 AM";
     axios_post := fun _ _ => provisioned;
     createAccount := fun _ _ a => Returned {| viemAddress := a |};
     createUserOperation := fun _ _ _ _ => Returned built;
     createSponsorPaymasterUserOperation := fun _ _ _ _ => sponsor;
     signTypedData := fun _ _ _ => signed;
     sendUserOperation := fun _ _ _ =>
       Returned {| userOperationHash := "0xUSEROP" |};
     included := fun _ =>
       Returned {| receipt := {| transactionHash := "0xTX" |} |} |}.

Definition full_session : option UserSession :=
  Some (user_session (Some [{| walletId := "wallet-1" |}])
                     (Some [{| acc_address := owner |}])).

(** Every collaborator answers. *)
Definition happy : Services :=
  services (Some {| organizationId := "org-1" |}) full_session
    (Returned details) (Returned (sponsored, None)) (Returned "0x5161").

(** The key service declines to sign. *)
Definition signing_rejected : Services :=
  services (Some {| organizationId := "org-1" |}) full_session
    (Returned details) (Returned (sponsored, None))
    (Threw (JsError "Error" "user cancelled")).

(** The paymaster declines to sponsor. *)
Definition sponsorship_denied : Services :=
  services (Some {| organizationId := "org-1" |}) full_session
    (Returned details) (Threw (JsError "Error" "policy rejected"))
    (Returned "0x5161").

(** The user has a sub-organization but no wallet in it. *)
Definition no_wallets : Services :=
  services (Some {| organizationId := "org-1" |})
    (Some (user_session (Some []) (Some [])))
    (Returned details) (Returned (sponsored, None)) (Returned "0x5161").

(** The first wallet has no account. *)
Definition no_accounts : Services :=
  services (Some {| organizationId := "org-1" |})
    (Some (user_session (Some [{| walletId := "wallet-1" |}]) (Some [])))
    (Returned details) (Returned (sponsored, None)) (Returned "0x5161").

(** The key service reports no organization. *)
Definition no_organization : Services :=
  services None full_session
    (Returned details) (Returned (sponsored, None)) (Returned "0x5161").

(** There is no current session. *)
Definition no_session : Services :=
  services (Some {| organizationId := "org-1" |}) None
    (Returned details) (Returned (sponsored, None)) (Returned "0x5161").

(** The first account of the first wallet is not an Ethereum account. *)
Definition foreign_address : Address :=
  "7xKXtg2CW87d97TXJSDpbD5jBkheTqA83TZRuJosgAsU".

Definition foreign_account : Services :=
  services (Some {| organizationId := "org-1" |})
    (Some (user_session (Some [{| walletId := "wallet-1" |}])
                        (Some [{| acc_address := foreign_address |}])))
    (Returned details) (Returned (sponsored, None)) (Returned "0x5161").

(** The provisioning backend is down. *)
Definition backend_down : Services :=
  services (Some {| organizationId := "org-1" |}) full_session
    (Threw (JsError "AxiosError" "Network Error"))
    (Returned (sponsored, None)) (Returned "0x5161").

End Sample.

(** ** The order of the collaborator calls *)

(** The place of a call in the handler that [t] submits; [None] for the
    calls that handler never makes and for what is no collaborator call
    (state setters, the console, alerts). *)
Definition stage_of (t : Trigger) (ev : Event) : option nat :=
  match t, ev with
  | SubmitSign, EvCreateAccount _ _ _ => Some 1
  | SubmitSign, EvCreateUserOperation _ _ _ _ => Some 2
  | SubmitSign, EvCreateSponsorPaymasterUserOperation _ _ _ _ => Some 3
  | SubmitSign, EvGetUserOperationEip712Data _ _ => Some 4
  | SubmitSign, EvSignTypedData _ _ _ => Some 5
  | SubmitSign, EvFormatEip712Signatures _ _ => Some 6
  | SubmitSign, EvSendUserOperation _ _ _ => Some 7
  | SubmitSign, EvIncluded _ => Some 8
  | SubmitCreate, EvCreateUserPasskey _ _ _ _ => Some 1
  | SubmitCreate, EvAxiosPost _ _ => Some 2
  | SubmitCreate, EvInitializeNewAccount _ => Some 3
  | SubmitLogin, EvLogin => Some 1
  | SubmitLogin, EvCurrentUserSession => Some 2
  | SubmitLogin, EvGetWallets => Some 3
  | SubmitLogin, EvGetWalletAccounts _ _ => Some 4
  | SubmitLogin, EvInitializeNewAccount _ => Some 5
  | _, _ => None
  end.

(** What is no call to a collaborator. *)
Definition is_local (ev : Event) : bool :=
  match ev with
  | EvSetWallet _ | EvSetSmartWallet _ | EvSetTxHash _ | EvSetUserOpHash _
  | EvConsoleError _ | EvAlert _ => true
  | _ => false
  end.

(** The places of the calls of a log, in the order of the log. *)
Fixpoint stages (t : Trigger) (l : list Event) : list nat :=
  match l with
  | [] => []
  | ev :: rest =>
      match stage_of t ev with
      | Some n => n :: stages t rest
      | None => stages t rest
      end
  end.

(** What tells the user of a failure. *)
Definition is_report (ev : Event) : bool :=
  match ev with
  | EvConsoleError _ | EvAlert _ => true
  | _ => false
  end.

(** The call that [ev] records threw [e]. *)
Definition threw (kit : AbstractionKit) (sv : Services) (ev : Event)
    (e : JsThrown) : Prop :=
  match ev with
  | EvCreateAccount organization signWith ethereumAddress =>
      createAccount sv organization signWith ethereumAddress = Threw e
  | EvCreateUserOperation s txs node bundler =>
      createUserOperation sv s txs node bundler = Threw e
  | EvCreateSponsorPaymasterUserOperation rpc op bundler sponsorship =>
      createSponsorPaymasterUserOperation sv rpc op bundler sponsorship
      = Threw e
  | EvGetUserOperationEip712Data op chainNumber =>
      getUserOperationEip712Data kit op chainNumber = Threw e
  | EvSignTypedData client d primaryType =>
      signTypedData sv client d primaryType = Threw e
  | EvFormatEip712Signatures owners signatures =>
      formatEip712SignaturesToUseroperationSignature kit owners signatures
      = Threw e
  | EvSendUserOperation s op bundler =>
      sendUserOperation sv s op bundler = Threw e
  | EvIncluded response => included sv response = Threw e
  | _ => False
  end.

(** ** Handler runs in flight

    The handlers are asynchronous and nothing disables a form while a run
    it started is still waiting: runs overlap.  A run of
    [createSubOrgAndWallet] or of [login] reads nothing of the page and
    calls its setters in one uninterrupted block at its very end, so such a
    run in flight is known by the answers it will get, and it lands on the
    page of that later moment.  A run of [signMessage] reads the wallet and
    the smart account and resets both results when it is submitted, before
    its first [await]; the setters it calls later land one at a time. *)

Definition is_setter (ev : Event) : bool :=
  match ev with
  | EvSetWallet _ | EvSetSmartWallet _ | EvSetTxHash _ | EvSetUserOpHash _ =>
      true
  | _ => false
  end.

(** The setter calls of the run of [signMessage] submitted on [p] that come
    after its two resets, in order. *)
Definition later_setters (kit : AbstractionKit) (cfg : Config)
    (sv : Services) (p : Page) : list Event :=
  filter is_setter (skipn 2 (log_of (signMessage kit cfg sv p))).

Inductive InFlight : Type :=
| CreateInFlight (sv : Services)
| LoginInFlight (sv : Services)
| SignInFlight (pending : list Event).

(** The page with the runs in flight. *)
Definition Tab : Type := (Page * list InFlight)%type.

Inductive tab_step (kit : AbstractionKit) (cfg : Config) : Tab -> Tab -> Prop :=
| submit_create (sv : Services) (p : Page) (flying : list InFlight) :
    shows_account_forms p = true ->
    tab_step kit cfg (p, flying) (p, CreateInFlight sv :: flying)
| submit_login (sv : Services) (p : Page) (flying : list InFlight) :
    shows_account_forms p = true ->
    tab_step kit cfg (p, flying) (p, LoginInFlight sv :: flying)
| submit_sign (sv : Services) (p : Page) (flying : list InFlight) :
    shows_submit_form p = true ->
    tab_step kit cfg (p, flying)
      (replay [EvSetTxHash ""; EvSetUserOpHash ""] p,
       SignInFlight (later_setters kit cfg sv p) :: flying)
| land_create (sv : Services) (p : Page) (before after : list InFlight) :
    tab_step kit cfg
      (p, (before ++ CreateInFlight sv :: after)%list)
      (page_of (createSubOrgAndWallet kit sv p), (before ++ after)%list)
| land_login (sv : Services) (p : Page) (before after : list InFlight) :
    tab_step kit cfg
      (p, (before ++ LoginInFlight sv :: after)%list)
      (page_of (login kit sv p), (before ++ after)%list)
| land_setter (ev : Event) (pending : list Event) (p : Page)
    (before after : list InFlight) :
    tab_step kit cfg
      (p, (before ++ SignInFlight (ev :: pending) :: after)%list)
      (apply_event p ev, (before ++ SignInFlight pending :: after)%list).

(** What a tab can come to, from the freshly loaded page. *)
Inductive tab_reachable (kit : AbstractionKit) (cfg : Config) : Tab -> Prop :=
| tab_loaded : tab_reachable kit cfg (initialPage, [])
| tab_next (t t' : Tab) :
    tab_reachable kit cfg t ->
    tab_step kit cfg t t' ->
    tab_reachable kit cfg t'.

(** Both session fields are set. *)
Definition session_complete (p : Page) : Prop :=
  exists w s, wallet p = Some w /\ smartWallet p = Some s.

(** ** More sample answers *)
Module Scenario.

(** The relay accepts the operation but the inclusion wait fails. *)
Definition inclusion_fails : Services :=
  {| passkeyClient := passkeyClient Sample.happy;
     turnkey := turnkey Sample.happy;
     toLocaleString := toLocaleString Sample.happy;
     axios_post := axios_post Sample.happy;
     createAccount := createAccount Sample.happy;
     createUserOperation := createUserOperation Sample.happy;
     createSponsorPaymasterUserOperation :=
       createSponsorPaymasterUserOperation Sample.happy;
     signTypedData := signTypedData Sample.happy;
     sendUserOperation := sendUserOperation Sample.happy;
     included := fun _ => Threw (JsError "Error" "timed out") |}.

(** The passkey ceremony is cancelled. *)
Definition ceremony_cancelled : Services :=
  {| passkeyClient :=
       Some {| createUserPasskey := fun _ =>
                 Threw (JsError "NotAllowedError" "The operation was cancelled");
               passkeyLogin := Returned None |};
     turnkey := turnkey Sample.happy;
     toLocaleString := toLocaleString Sample.happy;
     axios_post := axios_post Sample.happy;
     createAccount := createAccount Sample.happy;
     createUserOperation := createUserOperation Sample.happy;
     createSponsorPaymasterUserOperation :=
       createSponsorPaymasterUserOperation Sample.happy;
     signTypedData := signTypedData Sample.happy;
     sendUserOperation := sendUserOperation Sample.happy;
     included := included Sample.happy |}.

(** The ceremony yields a passkey without attestation. *)
Definition no_attestation : Services :=
  {| passkeyClient :=
       Some {| createUserPasskey := fun _ =>
                 Returned (Some {| encodedChallenge := "challenge-1";
                                   attestation := None |});
               passkeyLogin := Returned None |};
     turnkey := turnkey Sample.happy;
     toLocaleString := toLocaleString Sample.happy;
     axios_post := axios_post Sample.happy;
     createAccount := createAccount Sample.happy;
     createUserOperation := createUserOperation Sample.happy;
     createSponsorPaymasterUserOperation :=
       createSponsorPaymasterUserOperation Sample.happy;
     signTypedData := signTypedData Sample.happy;
     sendUserOperation := sendUserOperation Sample.happy;
     included := included Sample.happy |}.

(** The first wallet has an empty identifier; a second one has not. *)
Definition first_wallet_unnamed : Services :=
  Sample.services (Some {| organizationId := "org-1" |})
    (Some (Sample.user_session
             (Some [{| walletId := "" |}; {| walletId := "wallet-2" |}])
             (Some [{| acc_address := Sample.owner |}])))
    (Returned Sample.details) (Returned (Sample.sponsored, None))
    (Returned "0x5161").

(** Two wallets and two accounts. *)
Definition two_wallets : Services :=
  Sample.services (Some {| organizationId := "org-1" |})
    (Some (Sample.user_session
             (Some [{| walletId := "wallet-1" |}; {| walletId := "wallet-2" |}])
             (Some [{| acc_address := Sample.owner |};
                    {| acc_address := Sample.stranger |}])))
    (Returned Sample.details) (Returned (Sample.sponsored, None))
    (Returned "0x5161").

End Scenario.

(** * Properties *)

(** ** Proof tools *)

Ltac unfold_handlers :=
  unfold signMessage, signMessage_try, signMessage_catch,
    createSubOrgAndWallet, login, login_try, login_catch, unless_falsy,
    tryCatch, bind, call, pure_expr, ret, throw, getPage,
    setTxHash, setUserOpHash, setWallet, setSmartWallet,
    alert, console_error, emit, log_of, page_of, outcome_of in *.

Ltac reduce_run :=
  cbn [wallet smartWallet txHash userOpHash fst snd app option_map
       truthy_opt encodedChallenge_of attestation_of present negb orb] in *.

Ltac split_outcomes :=
  repeat match goal with
    | |- context [match ?o with Returned _ => _ | Threw _ => _ end] =>
        let E := fresh "E" in destruct o eqn:E; reduce_run
    end.

(** Every way a run of [signMessage] from [p] can go. *)
Ltac sign_cases p :=
  unfold_handlers; reduce_run;
  destruct (wallet p) as [w|] eqn:Ewallet;
  [ destruct (smartWallet p) as [sw|] eqn:Esmart | ];
  reduce_run; split_outcomes.

(** Membership of an event in a log that is known element by element. *)
Ltac in_log :=
  repeat match goal with
    | H : In _ (_ :: _) |- _ => destruct H as [H|H]
    | H : In _ [] |- _ => destruct H
    | H : @eq Event _ ?x |- _ => is_var x; subst x
    | H : @eq Event _ _ |- _ => discriminate H
    | H : @eq Event _ _ |- _ => injection H as; subst
    end.

(** An event is in a log that is known element by element. *)
Ltac find_in_log :=
  simpl; repeat (first [ left; reflexivity | right ]).

Lemma app_cons_inv {A} (pre post l : list A) (x a : A) :
  a :: l = (pre ++ x :: post)%list ->
  (pre = [] /\ x = a /\ post = l)
  \/ (exists pre', pre = a :: pre' /\ l = (pre' ++ x :: post)%list).
Proof.
  destruct pre as [|b pre']; simpl; intros H; inversion H; subst.
  - left; auto.
  - right; eauto.
Qed.

(** All the ways a known log splits around one event. *)
Ltac split_log_step H :=
  let Hx := fresh "Hx" in
  let Hpre := fresh "Hpre" in
  let Hpost := fresh "Hpost" in
  let pre' := fresh "pre" in
  apply app_cons_inv in H;
  destruct H as [(Hpre & Hx & Hpost) | (pre' & Hpre & H)];
  [ subst; try discriminate Hx; try (injection Hx as; subst)
  | rewrite Hpre in *; clear Hpre ].

Ltac split_log H :=
  repeat split_log_step H;
  try solve [destruct (app_cons_not_nil _ _ _ H)].

Lemma truthy_nonempty (s : string) : truthy s = true -> s <> "".
Proof.
  unfold truthy. intros H ->. discriminate H.
Qed.

Lemma shown_txHash_some (p : Page) (t : string) :
  shown_txHash p = Some t -> t = txHash p /\ t <> "".
Proof.
  unfold shown_txHash. destruct (truthy (txHash p)) eqn:E; intros H.
  - injection H as <-. split; [reflexivity | now apply truthy_nonempty].
  - discriminate H.
Qed.

(** ** The handlers on concrete answers *)

Example signMessage_happy_run :
  signMessage Sample.kit Sample.config Sample.happy Sample.session
  = (Returned tt,
     {| wallet := Some Sample.details;
        smartWallet := Some (Sample.safe_of [Sample.owner]);
        txHash := "0xTX"; userOpHash := "0xUSEROP" |},
     [EvSetTxHash ""; EvSetUserOpHash "";
      EvCreateAccount "org-1" Sample.owner Sample.owner;
      EvCreateUserOperation (Sample.safe_of [Sample.owner])
        [{| to := zeroAddress; value := 0%Z; data := "0x" |}]
        "https://node.example" "https://bundler.example";
      EvCreateSponsorPaymasterUserOperation "https://paymaster.example"
        Sample.built "https://bundler.example" "policy-1";
      EvGetUserOperationEip712Data Sample.sponsored 11155111%Z;
      EvSignTypedData (createWalletClient {| viemAddress := Sample.owner |})
        {| domain := "Safe4337Module"; types := "SafeOp";
           messageValue := "0xCA11" |} "SafeOp";
      EvFormatEip712Signatures [Sample.owner] ["0x5161"];
      EvSendUserOperation (Sample.safe_of [Sample.owner])
        (set_signature Sample.sponsored "0x5161") "https://bundler.example";
      EvSetUserOpHash "0xUSEROP";
      EvIncluded {| userOperationHash := "0xUSEROP" |};
      EvSetTxHash "0xTX"]).
Proof. reflexivity. Qed.

Example signMessage_logged_out_run :
  signMessage Sample.kit Sample.config Sample.happy initialPage
  = (Returned tt, initialPage,
     [EvSetTxHash ""; EvSetUserOpHash "";
      EvConsoleError
        [CStr "Error:"; CThrown (JsError "Error" "wallet not found")];
      EvAlert "Failed to submit user operation: wallet not found"]).
Proof. reflexivity. Qed.

Example createSubOrgAndWallet_happy_run :
  createSubOrgAndWallet Sample.kit Sample.happy initialPage
  = (Returned None, Sample.session,
     [EvCreateUserPasskey "localhost" "Turnkey Viem Passkey Demo"
        "Turnkey Viem+Passkey Demo - 11-2-2026, 9.30.00 AM"
        "Turnkey Viem+Passkey Demo - 11-2-2026, 9.30.00 AM";
      EvAxiosPost "/api/createSubOrg"
        {| req_subOrgName :=
             "Turnkey Viem+Passkey Demo - 11-2-2026, 9.30.00 AM";
           req_challenge := Some "challenge-1";
           req_attestation := Some "attestation-1" |};
      EvInitializeNewAccount [Sample.owner];
      EvSetSmartWallet (Sample.safe_of [Sample.owner]);
      EvSetWallet Sample.details]).
Proof. reflexivity. Qed.

Example createSubOrgAndWallet_backend_down_run :
  outcome_of (createSubOrgAndWallet Sample.kit Sample.backend_down initialPage)
  = Threw (JsError "AxiosError" "Network Error")
  /\ page_of (createSubOrgAndWallet Sample.kit Sample.backend_down initialPage)
     = initialPage.
Proof. split; reflexivity. Qed.

Example login_happy_run :
  login Sample.kit Sample.happy initialPage
  = (Returned tt, Sample.session,
     [EvLogin; EvCurrentUserSession; EvGetWallets;
      EvGetWalletAccounts "org-1" "wallet-1";
      EvSetWallet Sample.details;
      EvInitializeNewAccount [Sample.owner];
      EvSetSmartWallet (Sample.safe_of [Sample.owner])]).
Proof. reflexivity. Qed.

Example login_no_organization_run :
  login Sample.kit Sample.no_organization initialPage
  = (Returned tt, initialPage, [EvLogin]).
Proof. reflexivity. Qed.

Example login_no_session_run :
  login Sample.kit Sample.no_session initialPage
  = (Returned tt, initialPage, [EvLogin; EvCurrentUserSession]).
Proof. reflexivity. Qed.

Example login_no_accounts_run :
  login Sample.kit Sample.no_accounts initialPage
  = (Returned tt, initialPage,
     [EvLogin; EvCurrentUserSession; EvGetWallets;
      EvGetWalletAccounts "org-1" "wallet-1";
      EvConsoleError
        [CStr "caught error: TypeError: Cannot read properties of undefined (reading 'address')"];
      EvAlert "caught error: TypeError: Cannot read properties of undefined (reading 'address')"]).
Proof. reflexivity. Qed.

(** ** The log accounts for the state *)

(** The state a run of [signMessage] leaves is the one its setter calls
    produce, in the order of the log. *)
Lemma signMessage_page_replay (kit : AbstractionKit) (cfg : Config)
    (sv : Services) (p : Page) :
  page_of (signMessage kit cfg sv p)
  = replay (log_of (signMessage kit cfg sv p)) p.
Proof.
  sign_cases p; unfold replay;
    cbn [fold_left apply_event wallet smartWallet txHash userOpHash];
    rewrite ?Ewallet, ?Esmart; reflexivity.
Qed.

(** ** Signing failures (scenario B) *)

(** C2.  If the structured-data signing request of a run of [signMessage]
    is rejected, the rejection is shown to the user in an alert and the run
    contains no submission to the relay and no inclusion wait; the page
    shows neither a tracking handle nor a transaction hash. *)
Theorem signing_rejection_is_surfaced_and_nothing_is_submitted
    (kit : AbstractionKit) (cfg : Config) (sv : Services) (p : Page)
    (client : WalletClient) (d : Eip712Data) (primaryType : string)
    (e : JsThrown) :
  In (EvSignTypedData client d primaryType)
     (log_of (signMessage kit cfg sv p)) ->
  signTypedData sv client d primaryType = Threw e ->
  In (EvAlert ("Failed to submit user operation: " ++ message_or_string e))
     (log_of (signMessage kit cfg sv p))
  /\ (forall s op bundler,
        ~ In (EvSendUserOperation s op bundler)
             (log_of (signMessage kit cfg sv p)))
  /\ (forall r, ~ In (EvIncluded r) (log_of (signMessage kit cfg sv p)))
  /\ shown_userOpHash (page_of (signMessage kit cfg sv p)) = None
  /\ shown_txHash (page_of (signMessage kit cfg sv p)) = None.
Proof.
  intros Hin Hthrew. revert Hin.
  sign_cases p; intros Hin; in_log; try congruence.
  all: match goal with
       | E : signTypedData _ _ _ _ = Threw _ |- _ =>
           rewrite E in Hthrew; injection Hthrew as ->
       end.
  all: repeat split;
    [ simpl; tauto | intros s op b H; in_log | intros r H; in_log ].
Qed.

Lemma signing_rejection_witness :
  In (EvSignTypedData
        (createWalletClient {| viemAddress := Sample.owner |})
        {| domain := "Safe4337Module"; types := "SafeOp";
           messageValue := "0xCA11" |}
        "SafeOp")
     (log_of (signMessage Sample.kit Sample.config Sample.signing_rejected
                Sample.session))
  /\ In (EvAlert "Failed to submit user operation: user cancelled")
        (log_of (signMessage Sample.kit Sample.config Sample.signing_rejected
                   Sample.session))
  /\ (forall s op bundler,
        ~ In (EvSendUserOperation s op bundler)
             (log_of (signMessage Sample.kit Sample.config
                        Sample.signing_rejected Sample.session))).
Proof.
  assert (Hin : In (EvSignTypedData
                      (createWalletClient {| viemAddress := Sample.owner |})
                      {| domain := "Safe4337Module"; types := "SafeOp";
                         messageValue := "0xCA11" |}
                      "SafeOp")
                   (log_of (signMessage Sample.kit Sample.config
                              Sample.signing_rejected Sample.session))).
  { vm_compute. tauto. }
  split; [exact Hin|].
  destruct (signing_rejection_is_surfaced_and_nothing_is_submitted
              Sample.kit Sample.config Sample.signing_rejected Sample.session
              _ _ _ (JsError "Error" "user cancelled") Hin eq_refl)
    as (Halert & Hsend & _).
  split; [exact Halert | exact Hsend].
Defined.

(** ** Sponsorship failures (scenario C) *)

(** C3.  In every run of [signMessage] the paymaster call comes before the
    structured-data signing request, which is made only once the paymaster
    has answered; and if the paymaster call fails, the failure is shown to
    the user in an alert and the run contains no signing request. *)
Theorem sponsorship_precedes_signing
    (kit : AbstractionKit) (cfg : Config) (sv : Services) (p : Page) :
  (forall pre client d primaryType post,
     log_of (signMessage kit cfg sv p)
       = (pre ++ EvSignTypedData client d primaryType :: post)%list ->
     exists rpc op bundler sponsorship answer,
       In (EvCreateSponsorPaymasterUserOperation rpc op bundler sponsorship) pre
       /\ createSponsorPaymasterUserOperation sv rpc op bundler sponsorship
            = Returned answer)
  /\ (forall rpc op bundler sponsorship e,
        In (EvCreateSponsorPaymasterUserOperation rpc op bundler sponsorship)
           (log_of (signMessage kit cfg sv p)) ->
        createSponsorPaymasterUserOperation sv rpc op bundler sponsorship
          = Threw e ->
        In (EvAlert ("Failed to submit user operation: " ++ message_or_string e))
           (log_of (signMessage kit cfg sv p))
        /\ (forall client d primaryType,
              ~ In (EvSignTypedData client d primaryType)
                   (log_of (signMessage kit cfg sv p)))).
Proof.
  split.
  - intros pre client d primaryType post.
    sign_cases p; intros H; split_log H.
    all: do 5 eexists; split; [ find_in_log | eassumption ].
  - intros rpc op bundler sponsorship e Hin Hthrew. revert Hin.
    sign_cases p; intros Hin; in_log; try congruence.
    all: match goal with
         | E : createSponsorPaymasterUserOperation _ _ _ _ _ = Threw _ |- _ =>
             rewrite E in Hthrew; injection Hthrew as ->
         end.
    all: split; [ simpl; tauto | intros c d t H; in_log ].
Qed.

Lemma sponsorship_denial_witness :
  In (EvCreateSponsorPaymasterUserOperation "https://paymaster.example"
        Sample.built "https://bundler.example" "policy-1")
     (log_of (signMessage Sample.kit Sample.config Sample.sponsorship_denied
                Sample.session))
  /\ In (EvAlert "Failed to submit user operation: policy rejected")
        (log_of (signMessage Sample.kit Sample.config Sample.sponsorship_denied
                   Sample.session))
  /\ (forall client d primaryType,
        ~ In (EvSignTypedData client d primaryType)
             (log_of (signMessage Sample.kit Sample.config
                        Sample.sponsorship_denied Sample.session))).
Proof.
  assert (Hin : In (EvCreateSponsorPaymasterUserOperation
                      "https://paymaster.example" Sample.built
                      "https://bundler.example" "policy-1")
                   (log_of (signMessage Sample.kit Sample.config
                              Sample.sponsorship_denied Sample.session))).
  { vm_compute. tauto. }
  split; [exact Hin|].
  exact (proj2 (sponsorship_precedes_signing Sample.kit Sample.config
                  Sample.sponsorship_denied Sample.session)
           _ _ _ _ (JsError "Error" "policy rejected") Hin eq_refl).
Defined.

(** ** The sponsored operation is the one signed and submitted *)



(** ** Submission and tracking (scenario A) *)

(** C4.  A run of [signMessage] that ends without an alert built its
    operation from the fixed intent (zero address, value 0, data ["0x"]) and
    ends with exactly these four steps: the submission to the relay, the
    display of the tracking handle it answered, the inclusion wait on that
    handle, and the display of the transaction hash of the receipt the wait
    resolved to.  Before the wait nothing but the empty string is written to
    the transaction hash, so while the handle alone is displayed no
    transaction hash is; and a transaction hash on screen after the run is
    the non-empty hash of that receipt. *)
Theorem submission_yields_handle_then_receipt
    (kit : AbstractionKit) (cfg : Config) (sv : Services) (p : Page) :
  (forall text, ~ In (EvAlert text) (log_of (signMessage kit cfg sv p))) ->
  exists sw pre op response result,
    smartWallet p = Some sw
    /\ log_of (signMessage kit cfg sv p)
       = (pre ++ [EvSendUserOperation sw op (bundlerUrl cfg);
                  EvSetUserOpHash (userOperationHash response);
                  EvIncluded response;
                  EvSetTxHash (transactionHash (receipt result))])%list
    /\ sendUserOperation sv sw op (bundlerUrl cfg) = Returned response
    /\ included sv response = Returned result
    /\ In (EvCreateUserOperation sw
             [{| to := zeroAddress; value := 0%Z; data := "0x" |}]
             (nodeUrl cfg) (bundlerUrl cfg)) pre
    /\ (forall h, In (EvSetTxHash h) pre -> h = "")
    /\ (forall s o b, ~ In (EvSendUserOperation s o b) pre)
    /\ (forall r, ~ In (EvIncluded r) pre)
    /\ userOpHash
         (replay (pre ++ [EvSendUserOperation sw op (bundlerUrl cfg);
                          EvSetUserOpHash (userOperationHash response)]) p)
       = userOperationHash response
    /\ shown_txHash
         (replay (pre ++ [EvSendUserOperation sw op (bundlerUrl cfg);
                          EvSetUserOpHash (userOperationHash response)]) p)
       = None
    /\ userOpHash (page_of (signMessage kit cfg sv p))
       = userOperationHash response
    /\ txHash (page_of (signMessage kit cfg sv p))
       = transactionHash (receipt result)
    /\ (forall t,
          shown_txHash (page_of (signMessage kit cfg sv p)) = Some t ->
          t = transactionHash (receipt result) /\ t <> "").
Proof.
  intros Hquiet.
  assert (Hshown : forall t,
             shown_txHash (page_of (signMessage kit cfg sv p)) = Some t ->
             t = txHash (page_of (signMessage kit cfg sv p)) /\ t <> "")
    by (intros t; apply shown_txHash_some).
  revert Hquiet Hshown.
  sign_cases p; intros Hquiet Hshown.
  all: try solve [ exfalso; eapply Hquiet; find_in_log ].
  exists sw.
  eexists [_; _; _; _; _; _; _; _], _, _, _.
  split; [reflexivity|].
  split; [reflexivity|].
  split; [eassumption|].
  split; [eassumption|].
  split; [simpl; tauto|].
  split; [intros h H; in_log; reflexivity|].
  split; [intros s o b H; in_log|].
  split; [intros r H; in_log|].
  split; [reflexivity|].
  split; [reflexivity|].
  split; [reflexivity|].
  split; [reflexivity|].
  exact Hshown.
Qed.

Lemma submission_witness :
  (forall text,
     ~ In (EvAlert text)
          (log_of (signMessage Sample.kit Sample.config Sample.happy
                     Sample.session_after_inclusion)))
  /\ shown_txHash (page_of (signMessage Sample.kit Sample.config Sample.happy
                              Sample.session_after_inclusion)) = Some "0xTX"
  /\ exists result,
       included Sample.happy {| userOperationHash := "0xUSEROP" |}
         = Returned result
       /\ "0xTX" = transactionHash (receipt result)
       /\ "0xTX" <> "".
Proof.
  assert (Hquiet : forall text,
             ~ In (EvAlert text)
                  (log_of (signMessage Sample.kit Sample.config Sample.happy
                             Sample.session_after_inclusion))).
  { intros text H. vm_compute in H. intuition discriminate. }
  split; [exact Hquiet|].
  split; [reflexivity|].
  destruct (submission_yields_handle_then_receipt
              Sample.kit Sample.config Sample.happy
              Sample.session_after_inclusion Hquiet)
    as (sw & pre & op & response & result
        & _ & _ & _ & Hincluded & _ & _ & _ & _ & _ & _ & _ & _ & Hshown).
  exists result.
  destruct (Hshown "0xTX" eq_refl) as (Ht & Hne).
  split; [|split; [exact Ht | exact Hne]].
  destruct response as [h]. exact Hincluded.
Defined.

(** ** Results of an earlier run are never shown for a later one *)




(** ** What a run of account creation or of login does to the session *)

Ltac split_matches :=
  repeat match goal with
    | |- context [match ?x with _ => _ end] =>
        lazymatch type of x with
        | prod _ _ => fail
        | _ => let E := fresh "E" in destruct x eqn:E; reduce_run
        end
    end.

(** Every way a run of [createSubOrgAndWallet] or of [login] can go. *)
Ltac run_cases := unfold_handlers; reduce_run; split_matches.

(** A run of [createSubOrgAndWallet] either sets nothing, and then it did
    not complete, or it completes having posted to the backend, derived the
    account from the single address of the answer and set both session
    fields, the smart account first. *)
Lemma createSubOrgAndWallet_effect (kit : AbstractionKit) (sv : Services)
    (p : Page) :
  (page_of (createSubOrgAndWallet kit sv p) = p
   /\ outcome_of (createSubOrgAndWallet kit sv p) <> Returned None
   /\ (forall w, ~ In (EvSetWallet w) (log_of (createSubOrgAndWallet kit sv p)))
   /\ (forall s,
         ~ In (EvSetSmartWallet s) (log_of (createSubOrgAndWallet kit sv p))))
  \/ (exists pre body response derived,
        outcome_of (createSubOrgAndWallet kit sv p) = Returned None
        /\ axios_post sv "/api/createSubOrg" body = Returned response
        /\ initializeNewAccount kit [address response] = Returned derived
        /\ page_of (createSubOrgAndWallet kit sv p)
           = with_session p (Some response) (Some derived)
        /\ log_of (createSubOrgAndWallet kit sv p)
           = (pre ++ [EvAxiosPost "/api/createSubOrg" body;
                      EvInitializeNewAccount [address response];
                      EvSetSmartWallet derived;
                      EvSetWallet response])%list
        /\ (forall ev, In ev pre -> is_lookup ev = true)).
Proof.
  run_cases.
  all: try solve
    [ left; split; [reflexivity|]; split; [discriminate|];
      split; intros x H; in_log ].
  all: right;
    first [ eexists [_], _, _, _;
            split; [ reflexivity | ]; split; [ eassumption | ];
            split; [ eassumption | ]; split; [ reflexivity | ];
            split; [ reflexivity | intros x H; in_log; reflexivity ]
          | eexists [], _, _, _;
            split; [ reflexivity | ]; split; [ eassumption | ];
            split; [ eassumption | ]; split; [ reflexivity | ];
            split; [ reflexivity | intros x H; in_log ] ].
Qed.

(** A run of [login] sets nothing; or it sets the wallet, derives the
    account from the single address of that wallet and sets the smart
    account, after nothing but lookups; or the derivation throws after the wallet
    was set, which leaves the smart account as it was; the catch block then
    alerts, unless reading [toString] of what was thrown throws itself, in
    which case the handler rejects. *)
Lemma login_effect (kit : AbstractionKit) (sv : Services) (p : Page) :
  (page_of (login kit sv p) = p
   /\ (forall w, ~ In (EvSetWallet w) (log_of (login kit sv p)))
   /\ (forall s, ~ In (EvSetSmartWallet s) (log_of (login kit sv p))))
  \/ (exists pre w derived,
        initializeNewAccount kit [address w] = Returned derived
        /\ page_of (login kit sv p) = with_session p (Some w) (Some derived)
        /\ log_of (login kit sv p)
           = (pre ++ [EvSetWallet w;
                      EvInitializeNewAccount [address w];
                      EvSetSmartWallet derived])%list
        /\ (forall ev, In ev pre -> is_lookup ev = true))
  \/ (exists w e,
        initializeNewAccount kit [address w] = Threw e
        /\ page_of (login kit sv p) = with_session p (Some w) (smartWallet p)
        /\ In (EvSetWallet w) (log_of (login kit sv p))
        /\ (forall s, ~ In (EvSetSmartWallet s) (log_of (login kit sv p)))
        /\ match toString e with
           | Returned text =>
               In (EvAlert ("caught error: " ++ text)) (log_of (login kit sv p))
           | Threw thrown => outcome_of (login kit sv p) = Threw thrown
           end
        /\ In (EvInitializeNewAccount [address w]) (log_of (login kit sv p))).
Proof.
  run_cases.
  all: try solve
    [ left; split; [reflexivity|]; split; intros x H; in_log ].
  all: match goal with
       | |- context [EvSetWallet ?w :: _] =>
           match goal with
           | E : initializeNewAccount _ _ = Returned ?d |- _ =>
               right; left; eexists; exists w, d;
               split; [ exact E | ]; split; [ reflexivity | ];
               split;
               [ first [ instantiate (1 := [_; _; _; _]); reflexivity
                       | instantiate (1 := [_; _; _]); reflexivity ]
               | intros x H; in_log; reflexivity ]
           | E : initializeNewAccount _ _ = Threw ?e |- _ =>
               right; right; exists w, e;
               split; [ exact E | ]; split; [ reflexivity | ];
               split; [ find_in_log | ];
               split; [ intros x H; in_log | ];
               split; [ | find_in_log ];
               match goal with
               | Ht : toString _ = _ |- _ => rewrite Ht
               end;
               first [ reflexivity | find_in_log ]
           end
       end.
Qed.

(** [signMessage] never touches the session fields. *)
Lemma signMessage_keeps_session (kit : AbstractionKit) (cfg : Config)
    (sv : Services) (p : Page) :
  wallet (page_of (signMessage kit cfg sv p)) = wallet p
  /\ smartWallet (page_of (signMessage kit cfg sv p)) = smartWallet p.
Proof.
  sign_cases p; rewrite ?Ewallet, ?Esmart; split; reflexivity.
Qed.

(** ** Account creation binds the wallet address as sole owner *)

(** C7.  After a run of [createSubOrgAndWallet] that completes, the stored
    wallet is the backend's answer, the account deriver was called once, on
    the one-element list holding that wallet's address, and the stored smart
    account is what that call returned. *)
Theorem created_wallet_address_is_the_sole_owner
    (kit : AbstractionKit) (sv : Services) (p : Page) :
  outcome_of (createSubOrgAndWallet kit sv p) = Returned None ->
  exists body response derived,
    axios_post sv "/api/createSubOrg" body = Returned response
    /\ wallet (page_of (createSubOrgAndWallet kit sv p)) = Some response
    /\ smartWallet (page_of (createSubOrgAndWallet kit sv p)) = Some derived
    /\ initializeNewAccount kit [address response] = Returned derived
    /\ In (EvInitializeNewAccount [address response])
          (log_of (createSubOrgAndWallet kit sv p))
    /\ (forall owners,
          In (EvInitializeNewAccount owners)
             (log_of (createSubOrgAndWallet kit sv p)) ->
          owners = [address response]).
Proof.
  intros Hdone.
  destruct (createSubOrgAndWallet_effect kit sv p)
    as [(_ & Hnot & _)
       | (pre & body & response & derived
          & _ & Hpost & Hderive & Hpage & Hlog & Hpre)].
  - contradiction.
  - exists body, response, derived.
    rewrite Hpage, Hlog.
    split; [exact Hpost|].
    split; [reflexivity|].
    split; [reflexivity|].
    split; [exact Hderive|].
    split.
    + apply in_or_app. right. simpl. tauto.
    + intros owners Hin. apply in_app_or in Hin.
      destruct Hin as [Hin | Hin].
      * apply Hpre in Hin. discriminate Hin.
      * in_log. reflexivity.
Qed.

Lemma created_wallet_witness :
  outcome_of (createSubOrgAndWallet Sample.kit Sample.happy initialPage)
  = Returned None
  /\ exists response derived,
       wallet (page_of (createSubOrgAndWallet Sample.kit Sample.happy
                          initialPage)) = Some response
       /\ initializeNewAccount Sample.kit [address response]
          = Returned derived
       /\ smartWallet (page_of (createSubOrgAndWallet Sample.kit Sample.happy
                                  initialPage)) = Some derived.
Proof.
  split; [reflexivity|].
  destruct (created_wallet_address_is_the_sole_owner
              Sample.kit Sample.happy initialPage eq_refl)
    as (body & response & derived & _ & Hwallet & Hsmart & Hderive & _).
  exists response, derived.
  split; [exact Hwallet | split; [exact Hderive | exact Hsmart]].
Defined.

(** ** Login derives from the address it stores *)

(** X21.  After a run of [login] that sets the smart account, the stored
    smart account is what the account deriver returned for the one-element
    list holding the address of the wallet the run stored, and that is the
    only list the deriver was called on in the run. *)
Theorem login_derives_from_the_stored_wallet_address
    (kit : AbstractionKit) (sv : Services) (p : Page) (s : SafeAccount) :
  In (EvSetSmartWallet s) (log_of (login kit sv p)) ->
  exists w,
    wallet (page_of (login kit sv p)) = Some w
    /\ smartWallet (page_of (login kit sv p)) = Some s
    /\ initializeNewAccount kit [address w] = Returned s
    /\ In (EvInitializeNewAccount [address w]) (log_of (login kit sv p))
    /\ (forall owners,
          In (EvInitializeNewAccount owners) (log_of (login kit sv p)) ->
          owners = [address w]).
Proof.
  intros Hset.
  destruct (login_effect kit sv p)
    as [(_ & _ & Hnone)
       | [(pre & w & derived & Hderive & Hpage & Hlog & Hpre)
         | (w & e & _ & _ & _ & Hnone & _)]];
    try solve [destruct (Hnone s Hset)].
  assert (Hs : derived = s).
  { rewrite Hlog in Hset. apply in_app_or in Hset.
    destruct Hset as [Hset | Hset].
    - apply Hpre in Hset. discriminate Hset.
    - in_log. reflexivity. }
  subst derived. exists w. rewrite Hpage, Hlog.
  split; [reflexivity|]. split; [reflexivity|]. split; [exact Hderive|].
  split.
  - apply in_or_app. right. simpl. tauto.
  - intros owners Hin. apply in_app_or in Hin.
    destruct Hin as [Hin | Hin].
    + apply Hpre in Hin. discriminate Hin.
    + in_log. reflexivity.
Qed.

Lemma login_derivation_witness :
  In (EvSetSmartWallet (Sample.safe_of [Sample.owner]))
     (log_of (login Sample.kit Sample.happy initialPage))
  /\ exists w,
       wallet (page_of (login Sample.kit Sample.happy initialPage))
       = Some w
       /\ initializeNewAccount Sample.kit [address w]
          = Returned (Sample.safe_of [Sample.owner]).
Proof.
  assert (Hset : In (EvSetSmartWallet (Sample.safe_of [Sample.owner]))
                    (log_of (login Sample.kit Sample.happy
                               initialPage))).
  { vm_compute. tauto. }
  split; [exact Hset|].
  destruct (login_derives_from_the_stored_wallet_address
              Sample.kit Sample.happy initialPage _ Hset)
    as (w & Hw & _ & Hderive & _).
  exists w. split; [exact Hw | exact Hderive].
Defined.

(** ** Login that finds nothing *)

(** X19.  A login that alerts nothing either stopped in silence (the key
    service reported no organization, there was no current session, a
    listing answered nothing at all, or the first wallet had no identifier
    or the first account no address): the page is as it was and nothing but
    lookups were made; or it set both the wallet and the smart account.
    The one other way to alert nothing is that the account derivation threw
    [undefined] or [null] after the wallet was set: reading [toString] of
    it throws in the catch block and the handler rejects. *)
Lemma login_without_alert_changes_nothing_or_logs_in
    (kit : AbstractionKit) (sv : Services) (p : Page) :
  (forall text, ~ In (EvAlert text) (log_of (login kit sv p))) ->
  (page_of (login kit sv p) = p
   /\ forall ev, In ev (log_of (login kit sv p)) -> is_lookup ev = true)
  \/ (exists w derived,
        page_of (login kit sv p) = with_session p (Some w) (Some derived))
  \/ (exists w e thrown,
        initializeNewAccount kit [address w] = Threw e
        /\ toString e = Threw thrown
        /\ outcome_of (login kit sv p) = Threw thrown
        /\ page_of (login kit sv p) = with_session p (Some w) (smartWallet p)).
Proof.
  run_cases; intros Hquiet.
  all: try solve [ exfalso; eapply Hquiet; find_in_log ].
  all: try solve
    [ left; split; [ reflexivity | intros ev H; in_log; reflexivity ] ].
  all: try solve [ right; left; do 2 eexists; reflexivity ].
  all: match goal with
    | Ed : initializeNewAccount _ [?a] = Threw ?e,
      Et : toString ?e = Threw ?t
      |- context [EvSetWallet ?w :: _] =>
        right; right; exists w, e, t;
        repeat split; first [ assumption | reflexivity ]
    end.
Qed.

(** The silent stops of [login], one by one. *)
Lemma login_stops_silently_without_organization
    (kit : AbstractionKit) (sv : Services) (p : Page) (client : PasskeyClient)
    (answer : option LoginResponse) :
  passkeyClient sv = Some client ->
  passkeyLogin client = Returned answer ->
  truthy_opt (option_map organizationId answer) = false ->
  log_of (login kit sv p) = [EvLogin] /\ page_of (login kit sv p) = p.
Proof.
  intros Hclient Hlogin Hfalsy.
  unfold_handlers. rewrite Hclient. reduce_run. rewrite Hlogin. reduce_run.
  destruct answer as [[organization]|]; cbn in Hfalsy |- *.
  - rewrite Hfalsy. split; reflexivity.
  - split; reflexivity.
Qed.

Lemma login_stops_silently_without_session
    (kit : AbstractionKit) (sv : Services) (p : Page) (client : PasskeyClient)
    (tk : Turnkey) (organization : string) :
  passkeyClient sv = Some client ->
  passkeyLogin client = Returned (Some {| organizationId := organization |}) ->
  truthy organization = true ->
  turnkey sv = Some tk ->
  currentUserSession tk = Returned None ->
  log_of (login kit sv p) = [EvLogin; EvCurrentUserSession]
  /\ page_of (login kit sv p) = p.
Proof.
  intros Hclient Hlogin Horg Htk Hsession.
  unfold_handlers. rewrite Hclient. reduce_run. rewrite Hlogin. reduce_run.
  cbn [organizationId]. rewrite Horg, Htk. reduce_run.
  rewrite Hsession. reduce_run. split; reflexivity.
Qed.

(** C5.  A login that finds the organization and the session but an empty
    list of wallets does not stop in silence: reading [walletId] of the
    missing first wallet throws a [TypeError], which the handler catches,
    writes to the console and alerts.  The session itself stays as it
    was. *)
Theorem login_with_no_wallets_alerts
    (kit : AbstractionKit) (sv : Services) (p : Page) (client : PasskeyClient)
    (tk : Turnkey) (session : UserSession) (organization : string) :
  passkeyClient sv = Some client ->
  passkeyLogin client = Returned (Some {| organizationId := organization |}) ->
  truthy organization = true ->
  turnkey sv = Some tk ->
  currentUserSession tk = Returned (Some session) ->
  getWallets session = Returned (Some []) ->
  log_of (login kit sv p)
  = [EvLogin; EvCurrentUserSession; EvGetWallets;
     EvConsoleError
       [CStr ("caught error: TypeError: "
              ++ "Cannot read properties of undefined (reading 'walletId')")];
     EvAlert ("caught error: TypeError: "
              ++ "Cannot read properties of undefined (reading 'walletId')")]
  /\ page_of (login kit sv p) = p.
Proof.
  intros Hclient Hlogin Horg Htk Hsession Hwallets.
  unfold_handlers. rewrite Hclient. reduce_run. rewrite Hlogin. reduce_run.
  cbn [organizationId]. rewrite Horg, Htk. reduce_run.
  rewrite Hsession. reduce_run. rewrite Hwallets. reduce_run.
  split; reflexivity.
Qed.

Lemma login_with_no_wallets_witness :
  getWallets (Sample.user_session (Some []) (Some [])) = Returned (Some [])
  /\ In (EvAlert "caught error: TypeError: Cannot read properties of undefined (reading 'walletId')")
        (log_of (login Sample.kit Sample.no_wallets initialPage))
  /\ page_of (login Sample.kit Sample.no_wallets initialPage) = initialPage.
Proof.
  split; [reflexivity|].
  destruct (login_with_no_wallets_alerts Sample.kit Sample.no_wallets
              initialPage _ _ _ "org-1"
              eq_refl eq_refl eq_refl eq_refl eq_refl eq_refl)
    as (Hlog & Hpage).
  split; [ rewrite Hlog; simpl; tauto | exact Hpage ].
Defined.

(** X18.  The same happens when the first wallet lists no account: reading
    [address] of the missing first account throws a [TypeError], which is
    caught and alerted; the page stays as it was. *)
Lemma login_with_no_accounts_alerts
    (kit : AbstractionKit) (sv : Services) (p : Page) (client : PasskeyClient)
    (tk : Turnkey) (session : UserSession) (organization : string)
    (first : Wallet) (others : list Wallet) :
  passkeyClient sv = Some client ->
  passkeyLogin client = Returned (Some {| organizationId := organization |}) ->
  truthy organization = true ->
  turnkey sv = Some tk ->
  currentUserSession tk = Returned (Some session) ->
  getWallets session = Returned (Some (first :: others)) ->
  truthy (walletId first) = true ->
  getWalletAccounts session organization (walletId first)
    = Returned (Some []) ->
  In (EvAlert ("caught error: TypeError: "
               ++ "Cannot read properties of undefined (reading 'address')"))
     (log_of (login kit sv p))
  /\ page_of (login kit sv p) = p.
Proof.
  intros Hclient Hlogin Horg Htk Hsession Hwallets Hid Haccounts.
  unfold_handlers. rewrite Hclient. reduce_run. rewrite Hlogin. reduce_run.
  cbn [organizationId]. rewrite Horg, Htk. reduce_run.
  rewrite Hsession. reduce_run. rewrite Hwallets. reduce_run.
  cbn [first_walletId]. rewrite Hid. reduce_run.
  rewrite Haccounts. reduce_run.
  split; [ find_in_log | reflexivity ].
Qed.

(** ** Is the session set all at once? *)

(** Account creation is all-or-nothing: a run that does not complete calls
    neither setter and leaves the page as it was; a run that completes sets
    both session fields to fresh values. *)
Lemma createSubOrgAndWallet_all_or_nothing
    (kit : AbstractionKit) (sv : Services) (p : Page) :
  (outcome_of (createSubOrgAndWallet kit sv p) <> Returned None
   /\ page_of (createSubOrgAndWallet kit sv p) = p
   /\ forall ev,
        In ev (log_of (createSubOrgAndWallet kit sv p)) ->
        apply_event p ev = p)
  \/ (outcome_of (createSubOrgAndWallet kit sv p) = Returned None
      /\ exists w s,
           page_of (createSubOrgAndWallet kit sv p)
           = with_session p (Some w) (Some s)).
Proof.
  run_cases.
  all: try solve
    [ left; split; [ discriminate | ];
      split; [ reflexivity | intros ev H; in_log; reflexivity ] ].
  all: right; split; [ reflexivity | do 2 eexists; reflexivity ].
Qed.

(** X20.  So is login in every run whose account derivation, if it gets
    that far, returns: the run then calls neither session setter and leaves
    the page as it was, or it sets both session fields and alerts
    nothing. *)
Lemma login_all_or_nothing_when_derivation_returns
    (kit : AbstractionKit) (sv : Services) (p : Page) :
  (forall owners,
     In (EvInitializeNewAccount owners) (log_of (login kit sv p)) ->
     exists s, initializeNewAccount kit owners = Returned s) ->
  (page_of (login kit sv p) = p
   /\ (forall w, ~ In (EvSetWallet w) (log_of (login kit sv p)))
   /\ (forall s, ~ In (EvSetSmartWallet s) (log_of (login kit sv p))))
  \/ (exists w s,
        page_of (login kit sv p) = with_session p (Some w) (Some s)
        /\ forall text, ~ In (EvAlert text) (log_of (login kit sv p))).
Proof.
  intros Hreturns.
  destruct (login_effect kit sv p)
    as [Hnothing
       | [(pre & w & derived & _ & Hpage & Hlog & Hpre)
         | (w & e & Hthrew & _ & _ & _ & _ & Hcalled)]].
  - left. exact Hnothing.
  - right. exists w, derived. split; [exact Hpage|].
    intros text Hin. rewrite Hlog in Hin. apply in_app_or in Hin.
    destruct Hin as [Hin | Hin].
    + apply Hpre in Hin. discriminate Hin.
    + in_log.
  - exfalso. destruct (Hreturns _ Hcalled) as (s & Hs). congruence.
Qed.

(** C6.  In [login] the wallet is set before the account is derived.  When
    the derivation throws, the run fails with an alert (with a rejection of
    the handler when what was thrown is [undefined] or [null]), yet the
    wallet has been replaced and stays replaced, while the smart account is
    the one from before the run: only one of the two session fields was
    set. *)
Theorem login_sets_wallet_before_deriving
    (kit : AbstractionKit) (sv : Services) (p : Page)
    (w : TWalletDetails) (e : JsThrown) :
  In (EvSetWallet w) (log_of (login kit sv p)) ->
  initializeNewAccount kit [address w] = Threw e ->
  wallet (page_of (login kit sv p)) = Some w
  /\ smartWallet (page_of (login kit sv p)) = smartWallet p
  /\ (forall s, ~ In (EvSetSmartWallet s) (log_of (login kit sv p)))
  /\ match toString e with
     | Returned text =>
         In (EvAlert ("caught error: " ++ text)) (log_of (login kit sv p))
     | Threw thrown => outcome_of (login kit sv p) = Threw thrown
     end.
Proof.
  intros Hset Hthrew.
  destruct (login_effect kit sv p)
    as [(_ & Hnone & _)
       | [(pre & w' & derived & Hderive & _ & Hlog & Hpre)
         | (w' & e' & Hthrew' & Hpage & Hset' & Hnone & Halert & _)]].
  - destruct (Hnone w Hset).
  - exfalso. rewrite Hlog in Hset. apply in_app_or in Hset.
    destruct Hset as [Hset | Hset].
    + apply Hpre in Hset. discriminate Hset.
    + in_log. congruence.
  - assert (w' = w) as ->.
    { revert Hset Hset' Hnone. clear. run_cases; intros Hset Hset' Hnone.
      all: in_log; try reflexivity.
      all: exfalso; eapply Hnone; find_in_log. }
    assert (e' = e) as -> by congruence.
    rewrite Hpage. repeat split; assumption.
Qed.

Lemma login_partial_session_witness :
  In (EvSetWallet {| id := "wallet-1"; address := Sample.foreign_address;
                     subOrgId := "org-1" |})
     (log_of (login Sample.strict_kit Sample.foreign_account initialPage))
  /\ wallet (page_of (login Sample.strict_kit Sample.foreign_account
                        initialPage))
     = Some {| id := "wallet-1"; address := Sample.foreign_address;
               subOrgId := "org-1" |}
  /\ smartWallet (page_of (login Sample.strict_kit Sample.foreign_account
                             initialPage))
     = None
  /\ In (EvAlert "caught error: Error: invalid address")
        (log_of (login Sample.strict_kit Sample.foreign_account initialPage)).
Proof.
  assert (Hset : In (EvSetWallet
                       {| id := "wallet-1"; address := Sample.foreign_address;
                          subOrgId := "org-1" |})
                    (log_of (login Sample.strict_kit Sample.foreign_account
                               initialPage))).
  { vm_compute. tauto. }
  split; [exact Hset|].
  destruct (login_sets_wallet_before_deriving
              Sample.strict_kit Sample.foreign_account initialPage _
              (JsError "Error" "invalid address") Hset eq_refl)
    as (Hwallet & Hsmart & _ & Halert).
  split; [exact Hwallet | split; [exact Hsmart | exact Halert]].
Defined.

(** ** The owners given to signature formatting *)

Lemma formatting_owners (kit : AbstractionKit) (cfg : Config) (sv : Services)
    (p : Page) (owners : list Address) (signatures : list string) :
  In (EvFormatEip712Signatures owners signatures)
     (log_of (signMessage kit cfg sv p)) ->
  exists w s,
    wallet p = Some w /\ smartWallet p = Some s /\ owners = [address w].
Proof.
  sign_cases p; intros H; in_log.
  all: do 2 eexists; repeat split.
Qed.

(** A completed account creation leaves a consistent session, on whatever
    page it lands. *)
Lemma creation_leaves_a_consistent_session (kit : AbstractionKit)
    (sv : Services) (p : Page) :
  outcome_of (createSubOrgAndWallet kit sv p) = Returned None ->
  session_consistent kit (page_of (createSubOrgAndWallet kit sv p)).
Proof.
  intros Hdone.
  destruct (createSubOrgAndWallet_effect kit sv p)
    as [(_ & Hnot & _)
       | (pre & body & response & derived & _ & _ & Hderive & Hpage & _)];
    [contradiction|].
  rewrite Hpage. intros s Hs. cbn in Hs. injection Hs as <-.
  exists response. split; [reflexivity | exact Hderive].
Qed.

(** So does a login that sets the smart account. *)
Lemma login_leaves_a_consistent_session (kit : AbstractionKit)
    (sv : Services) (p : Page) (s : SafeAccount) :
  In (EvSetSmartWallet s) (log_of (login kit sv p)) ->
  session_consistent kit (page_of (login kit sv p)).
Proof.
  intros Hset.
  destruct (login_effect kit sv p)
    as [(_ & _ & Hnone)
       | [(pre & w & derived & Hderive & Hpage & _)
         | (w & e & _ & _ & _ & Hnone & _)]];
    try solve [destruct (Hnone s Hset)].
  rewrite Hpage. intros s' Hs. cbn in Hs. injection Hs as <-.
  exists w. split; [reflexivity | exact Hderive].
Qed.

(** A login whose derivation throws does not: landing on a page that
    already has a smart account (the handlers are not guarded against
    runs in flight), it replaces the wallet and keeps the smart account
    that was derived from the other wallet's address. *)
Lemma login_can_leave_a_mismatched_session :
  wallet (page_of (login Sample.strict_kit Sample.foreign_account
                     Sample.session))
  = Some {| id := "wallet-1"; address := Sample.foreign_address;
            subOrgId := "org-1" |}
  /\ smartWallet (page_of (login Sample.strict_kit Sample.foreign_account
                             Sample.session))
     = Some (Sample.safe_of [Sample.owner])
  /\ ~ session_consistent Sample.strict_kit
        (page_of (login Sample.strict_kit Sample.foreign_account
                    Sample.session)).
Proof.
  split; [reflexivity|]. split; [reflexivity|].
  intros Hconsistent.
  destruct (Hconsistent (Sample.safe_of [Sample.owner]) eq_refl)
    as (w & Hw & Hderive).
  injection Hw as <-. discriminate Hderive.
Qed.

(** C1 (as amended).  In every run of [signMessage] the owner list passed to
    signature formatting is the one-element list holding the address of
    the wallet the run found in the session; and when the session is
    consistent, its smart account is the account derived from exactly that
    list.  A completed account creation, and a login that sets the smart
    account, each leave a consistent session. *)
Theorem formatting_owners_are_the_derivation_owners
    (kit : AbstractionKit) (cfg : Config) :
  (forall sv p owners signatures,
     In (EvFormatEip712Signatures owners signatures)
        (log_of (signMessage kit cfg sv p)) ->
     exists w s,
       wallet p = Some w
       /\ smartWallet p = Some s
       /\ owners = [address w]
       /\ (session_consistent kit p ->
           initializeNewAccount kit owners = Returned s))
  /\ (forall sv p,
        outcome_of (createSubOrgAndWallet kit sv p) = Returned None ->
        session_consistent kit (page_of (createSubOrgAndWallet kit sv p)))
  /\ (forall sv p s,
        In (EvSetSmartWallet s) (log_of (login kit sv p)) ->
        session_consistent kit (page_of (login kit sv p))).
Proof.
  split; [ | split ].
  - intros sv p owners signatures Hin.
    destruct (formatting_owners kit cfg sv p owners signatures Hin)
      as (w & s & Hw & Hs & ->).
    exists w, s. repeat split; try assumption.
    intros Hconsistent.
    destruct (Hconsistent s Hs) as (w' & Hw' & Hderive).
    assert (w' = w) as -> by congruence.
    exact Hderive.
  - exact (creation_leaves_a_consistent_session kit).
  - exact (login_leaves_a_consistent_session kit).
Qed.

Lemma formatting_owners_witness :
  outcome_of (createSubOrgAndWallet Sample.kit Sample.happy initialPage)
  = Returned None
  /\ In (EvFormatEip712Signatures [Sample.owner] ["0x5161"])
        (log_of (signMessage Sample.kit Sample.config Sample.happy
                   (page_of (createSubOrgAndWallet Sample.kit Sample.happy
                               initialPage))))
  /\ initializeNewAccount Sample.kit [Sample.owner]
     = Returned (Sample.safe_of [Sample.owner]).
Proof.
  assert (Hin : In (EvFormatEip712Signatures [Sample.owner] ["0x5161"])
                   (log_of (signMessage Sample.kit Sample.config Sample.happy
                              (page_of (createSubOrgAndWallet Sample.kit
                                          Sample.happy initialPage))))).
  { vm_compute. tauto. }
  split; [reflexivity|]. split; [exact Hin|].
  destruct (formatting_owners_are_the_derivation_owners
              Sample.kit Sample.config)
    as (Hformat & Hcreate & _).
  destruct (Hformat Sample.happy _ _ _ Hin)
    as (w & s & Hw & Hs & _ & Hderive).
  injection Hs as <-.
  exact (Hderive (Hcreate Sample.happy initialPage eq_refl)).
Defined.

(** C1 (as stated) fails: [signMessage] compares no owner sets.  From a
    page whose smart account was derived from another owner than the one the
    signature is formatted for, the operation is submitted all the same. *)
Lemma mismatched_owners_are_submitted :
  ~ (forall (sv : Services) (p : Page) (owners : list Address)
            (signatures : list string) (s : SafeAccount),
       smartWallet p = Some s ->
       In (EvFormatEip712Signatures owners signatures)
          (log_of (signMessage Sample.kit Sample.config sv p)) ->
       initializeNewAccount Sample.kit owners <> Returned s ->
       forall s' op relay,
         ~ In (EvSendUserOperation s' op relay)
              (log_of (signMessage Sample.kit Sample.config sv p))).
Proof.
  intros Hclaim.
  apply (Hclaim Sample.happy Sample.mismatched_session
           [Sample.owner] ["0x5161"] (Sample.safe_of [Sample.stranger])
           eq_refl)
    with (s' := Sample.safe_of [Sample.stranger])
         (op := set_signature Sample.sponsored "0x5161")
         (relay := "https://bundler.example").
  - vm_compute. tauto.
  - vm_compute. discriminate.
  - vm_compute. tauto.
Qed.

(** * Further properties of the page *)

(** ** The sub-organization name *)

Lemma replaceAll_length (a b : ascii) (s : string) :
  String.length (replaceAll a b s) = String.length s.
Proof.
  induction s as [|c s IH]; simpl; [reflexivity | now rewrite IH].
Qed.

Lemma replaceAll_get (a b : ascii) (s : string) (n : nat) :
  String.get n (replaceAll a b s)
  = option_map (fun c => if Ascii.eqb c a then b else c) (String.get n s).
Proof.
  revert n. induction s as [|c s IH]; intros n; simpl.
  - reflexivity.
  - destruct n as [|n]; [reflexivity | apply IH].
Qed.

(** X1.  [humanReadableDateTime] keeps the length of the locale string and
    changes it only where it has a slash, which becomes a dash, or a colon,
    which becomes a full stop; so its result has neither slash nor colon. *)
Theorem humanReadableDateTime_replaces_separators (sv : Services) :
  String.length (humanReadableDateTime sv)
  = String.length (toLocaleString sv)
  /\ (forall n,
        String.get n (humanReadableDateTime sv)
        = option_map
            (fun c => if Ascii.eqb c "/" then "-"%char
                      else if Ascii.eqb c ":" then "."%char
                      else c)
            (String.get n (toLocaleString sv)))
  /\ (forall n c,
        String.get n (humanReadableDateTime sv) = Some c ->
        c <> "/"%char /\ c <> ":"%char).
Proof.
  unfold humanReadableDateTime.
  assert (Hget : forall n,
             String.get n
               (replaceAll ":" "." (replaceAll "/" "-" (toLocaleString sv)))
             = option_map
                 (fun c => if Ascii.eqb c "/" then "-"%char
                           else if Ascii.eqb c ":" then "."%char
                           else c)
                 (String.get n (toLocaleString sv))).
  { intros n. rewrite !replaceAll_get.
    destruct (String.get n (toLocaleString sv)) as [c|]; [|reflexivity].
    simpl. destruct (Ascii.eqb c "/") eqn:Eslash; [reflexivity|].
    reflexivity. }
  split; [ now rewrite !replaceAll_length | ].
  split; [ exact Hget | ].
  intros k c Hc. rewrite Hget in Hc.
  destruct (String.get k (toLocaleString sv)) as [c0|]; [|discriminate Hc].
  simpl in Hc. injection Hc as <-.
  destruct (Ascii.eqb c0 "/") eqn:Eslash.
  - split; discriminate.
  - destruct (Ascii.eqb c0 ":") eqn:Ecolon.
    + split; discriminate.
    + split; intros ->; discriminate.
Qed.

(** ** Account creation: the request, the refusals, the failures *)

(** Case analysis that also opens the credential and the listings. *)
Ltac reduce_deep :=
  cbn [wallet smartWallet txHash userOpHash fst snd app option_map
       truthy_opt encodedChallenge_of attestation_of present negb orb
       first_walletId first_address encodedChallenge attestation
       organizationId walletId acc_address] in *.

Ltac split_deep :=
  repeat match goal with
    | |- context [match ?x with _ => _ end] =>
        lazymatch type of x with
        | prod _ _ => fail
        | _ => let E := fresh "E" in destruct x eqn:E; reduce_deep
        end
    end.

Ltac run_cases_deep := unfold_handlers; reduce_deep; split_deep.

(** X2.  Whenever [createSubOrgAndWallet] posts to the backend, it posts to
    [/api/createSubOrg], and the body carries the non-empty challenge and
    the attestation of the very passkey the ceremony returned, under the
    sub-organization name that was given to the ceremony as user name and
    display name. *)
Theorem creation_request_carries_the_ceremony
    (kit : AbstractionKit) (sv : Services) (p : Page)
    (url : string) (body : CreateSubOrgRequest) :
  In (EvAxiosPost url body) (log_of (createSubOrgAndWallet kit sv p)) ->
  url = "/api/createSubOrg"
  /\ req_subOrgName body
     = "Turnkey Viem+Passkey Demo - " ++ humanReadableDateTime sv
  /\ In (EvCreateUserPasskey "localhost" "Turnkey Viem Passkey Demo"
           (req_subOrgName body) (req_subOrgName body))
        (log_of (createSubOrgAndWallet kit sv p))
  /\ exists client credential,
       passkeyClient sv = Some client
       /\ createUserPasskey client (req_subOrgName body)
          = Returned (Some credential)
       /\ encodedChallenge credential <> ""
       /\ req_challenge body = Some (encodedChallenge credential)
       /\ attestation credential <> None
       /\ req_attestation body = attestation credential.
Proof.
  unfold_handlers.
  destruct (passkeyClient sv) as [client|] eqn:Eclient; reduce_run;
    [ | intros H; in_log ].
  destruct (createUserPasskey client _) as [credential|e] eqn:Eceremony;
    reduce_run; [ | intros H; in_log ].
  destruct credential as [[challenge [att|]]|]; reduce_run;
    cbn [encodedChallenge attestation]; try (intros H; in_log; fail);
    try (destruct (truthy challenge); reduce_run; intros H; in_log; fail).
  destruct (truthy challenge) eqn:Echallenge; reduce_run;
    [ | intros H; in_log ].
  split_outcomes; intros H; in_log.
  all: split; [reflexivity|]; split; [reflexivity|];
    split; [find_in_log|].
  all: exists client, {| encodedChallenge := challenge;
                         attestation := Some att |}.
  all: split; [reflexivity|]; split; [exact Eceremony|].
  all: split; [ now apply truthy_nonempty | ].
  all: split; [ reflexivity | ].
  all: split; [ discriminate | reflexivity ].
Qed.

Lemma creation_request_witness :
  In (EvAxiosPost "/api/createSubOrg"
        {| req_subOrgName :=
             "Turnkey Viem+Passkey Demo - 11-2-2026, 9.30.00 AM";
           req_challenge := Some "challenge-1";
           req_attestation := Some "attestation-1" |})
     (log_of (createSubOrgAndWallet Sample.kit Sample.happy initialPage))
  /\ In (EvCreateUserPasskey "localhost" "Turnkey Viem Passkey Demo"
           "Turnkey Viem+Passkey Demo - 11-2-2026, 9.30.00 AM"
           "Turnkey Viem+Passkey Demo - 11-2-2026, 9.30.00 AM")
        (log_of (createSubOrgAndWallet Sample.kit Sample.happy initialPage)).
Proof.
  assert (Hin : In (EvAxiosPost "/api/createSubOrg"
                      {| req_subOrgName :=
                           "Turnkey Viem+Passkey Demo - 11-2-2026, 9.30.00 AM";
                         req_challenge := Some "challenge-1";
                         req_attestation := Some "attestation-1" |})
                   (log_of (createSubOrgAndWallet Sample.kit Sample.happy
                              initialPage))).
  { vm_compute. tauto. }
  split; [exact Hin|].
  destruct (creation_request_carries_the_ceremony
              Sample.kit Sample.happy initialPage _ _ Hin)
    as (_ & _ & Hceremony & _).
  exact Hceremony.
Defined.

(** X3.  [createSubOrgAndWallet] returns [false] exactly when the ceremony
    gave it nothing to register: there is no passkey client, or the ceremony
    resolved to nothing, or to a passkey with an empty challenge or without
    attestation.  In that case the backend is not called, nothing is
    derived and the page stays as it was. *)
Theorem creation_refuses_an_unusable_credential
    (kit : AbstractionKit) (sv : Services) (p : Page) :
  (outcome_of (createSubOrgAndWallet kit sv p) = Returned (Some false)
   <-> (passkeyClient sv = None
        \/ exists client,
             passkeyClient sv = Some client
             /\ (createUserPasskey client
                   ("Turnkey Viem+Passkey Demo - " ++ humanReadableDateTime sv)
                 = Returned None
                 \/ exists credential,
                      createUserPasskey client
                        ("Turnkey Viem+Passkey Demo - "
                         ++ humanReadableDateTime sv)
                      = Returned (Some credential)
                      /\ (encodedChallenge credential = ""
                          \/ attestation credential = None))))
  /\ (outcome_of (createSubOrgAndWallet kit sv p) = Returned (Some false) ->
      page_of (createSubOrgAndWallet kit sv p) = p
      /\ forall ev,
           In ev (log_of (createSubOrgAndWallet kit sv p)) ->
           stage_of SubmitCreate ev = Some 1).
Proof.
  unfold_handlers.
  destruct (passkeyClient sv) as [client|] eqn:Eclient; reduce_run.
  2: { split; [ split; [ intros _; left; reflexivity | reflexivity ] | ].
       intros _. split; [reflexivity | intros ev H; in_log]. }
  destruct (createUserPasskey client _) as [credential|e] eqn:Eceremony;
    reduce_run.
  2: { split; [ split; [ discriminate | ] | discriminate ].
       intros [H | (c & Hc & [H | (k & H & _)])]; try discriminate H.
       injection Hc as <-. rewrite Eceremony in H. discriminate H.
       injection Hc as <-. rewrite Eceremony in H. discriminate H. }
  destruct credential as [[challenge [att|]]|]; reduce_run;
    cbn [encodedChallenge attestation].
  - destruct (truthy challenge) eqn:Echallenge; reduce_run.
    + split_outcomes.
      all: split; [ split; [ discriminate | ] | discriminate ].
      all: intros [H | (c & Hc & [H | (k & H & [Hk | Hk])])];
        try discriminate H; injection Hc as <-; rewrite Eceremony in H;
        try discriminate H; injection H as <-; cbn in Hk;
        try discriminate Hk; subst challenge; discriminate Echallenge.
    + split.
      * split; [ intros _ | reflexivity ].
        right. exists client. split; [reflexivity|]. right.
        eexists. split; [exact Eceremony|]. left. cbn.
        unfold truthy in Echallenge. apply negb_false_iff in Echallenge.
        now apply String.eqb_eq in Echallenge.
      * intros _. split; [reflexivity | intros ev H; in_log; reflexivity].
  - destruct (truthy challenge); reduce_run.
    all: split;
      [ split; [ intros _ | reflexivity ]
      | intros _; split; [reflexivity | intros ev H; in_log; reflexivity] ].
    all: right; exists client; split; [reflexivity|]; right;
      eexists; (split; [exact Eceremony|]); right; reflexivity.
  - split;
      [ split; [ intros _ | reflexivity ]
      | intros _; split; [reflexivity | intros ev H; in_log; reflexivity] ].
    right. exists client. split; [reflexivity|]. left. exact Eceremony.
Qed.

Lemma creation_refusal_witness :
  outcome_of (createSubOrgAndWallet Sample.kit Scenario.no_attestation
                initialPage) = Returned (Some false)
  /\ page_of (createSubOrgAndWallet Sample.kit Scenario.no_attestation
                initialPage) = initialPage
  /\ forall ev,
       In ev (log_of (createSubOrgAndWallet Sample.kit Scenario.no_attestation
                        initialPage)) ->
       stage_of SubmitCreate ev = Some 1.
Proof.
  split; [reflexivity|].
  exact (proj2 (creation_refuses_an_unusable_credential
                  Sample.kit Scenario.no_attestation initialPage) eq_refl).
Defined.

(** X4.  [createSubOrgAndWallet] has no [catch]: it never alerts and never
    writes to the console.  When a call it makes (the ceremony, the post
    to the backend or the account derivation) throws, the handler rejects
    with exactly that error, no state setter has been called and the page
    stays as it was.  Conversely the handler rejects only with an error one
    of those three calls threw. *)
Theorem creation_failures_reject_the_handler
    (kit : AbstractionKit) (sv : Services) (p : Page) :
  (forall text, ~ In (EvAlert text) (log_of (createSubOrgAndWallet kit sv p)))
  /\ (forall args,
        ~ In (EvConsoleError args) (log_of (createSubOrgAndWallet kit sv p)))
  /\ (forall ev e,
        In ev (log_of (createSubOrgAndWallet kit sv p)) ->
        match ev with
        | EvCreateUserPasskey _ _ name _ =>
            exists client,
              passkeyClient sv = Some client
              /\ createUserPasskey client name = Threw e
        | EvAxiosPost url body => axios_post sv url body = Threw e
        | EvInitializeNewAccount owners =>
            initializeNewAccount kit owners = Threw e
        | _ => False
        end ->
        outcome_of (createSubOrgAndWallet kit sv p) = Threw e
        /\ page_of (createSubOrgAndWallet kit sv p) = p
        /\ forall ev',
             In ev' (log_of (createSubOrgAndWallet kit sv p)) ->
             is_local ev' = false)
  /\ forall e,
       outcome_of (createSubOrgAndWallet kit sv p) = Threw e ->
       page_of (createSubOrgAndWallet kit sv p) = p
       /\ (forall ev,
             In ev (log_of (createSubOrgAndWallet kit sv p)) ->
             is_local ev = false)
       /\ ((exists client name,
              passkeyClient sv = Some client
              /\ createUserPasskey client name = Threw e)
           \/ (exists body,
                 In (EvAxiosPost "/api/createSubOrg" body)
                    (log_of (createSubOrgAndWallet kit sv p))
                 /\ axios_post sv "/api/createSubOrg" body = Threw e)
           \/ (exists owners,
                 In (EvInitializeNewAccount owners)
                    (log_of (createSubOrgAndWallet kit sv p))
                 /\ initializeNewAccount kit owners = Threw e)).
Proof.
  run_cases.
  all: split; [ intros text H; in_log | ].
  all: split; [ intros args H; in_log | ].
  all: split;
    [ intros ev e' H Hthrew; in_log; cbv beta iota in Hthrew;
      try contradiction;
      try (destruct Hthrew as (client' & Hclient' & Hthrew);
           injection Hclient' as <-);
      first
        [ congruence
        | split; [ congruence | ];
          split; [ reflexivity | intros ev' H'; in_log; reflexivity ] ]
    | ].
  all: intros e' He'; try discriminate He'; injection He' as <-.
  all: split; [ reflexivity | ].
  all: split; [ intros ev H; in_log; reflexivity | ].
  all: first
    [ left; do 2 eexists; split; [ reflexivity | eassumption ]
    | right; left; eexists; split; [ find_in_log | eassumption ]
    | right; right; eexists; split; [ find_in_log | eassumption ] ].
Qed.

Lemma creation_failure_witness :
  In (EvAxiosPost "/api/createSubOrg"
        {| req_subOrgName :=
             "Turnkey Viem+Passkey Demo - 11-2-2026, 9.30.00 AM";
           req_challenge := Some "challenge-1";
           req_attestation := Some "attestation-1" |})
     (log_of (createSubOrgAndWallet Sample.kit Sample.backend_down
                initialPage))
  /\ outcome_of (createSubOrgAndWallet Sample.kit Sample.backend_down
                   initialPage)
     = Threw (JsError "AxiosError" "Network Error")
  /\ page_of (createSubOrgAndWallet Sample.kit Sample.backend_down initialPage)
     = initialPage
  /\ forall ev,
       In ev (log_of (createSubOrgAndWallet Sample.kit Sample.backend_down
                        initialPage)) ->
       is_local ev = false.
Proof.
  assert (Hin : In (EvAxiosPost "/api/createSubOrg"
                      {| req_subOrgName :=
                           "Turnkey Viem+Passkey Demo - 11-2-2026, 9.30.00 AM";
                         req_challenge := Some "challenge-1";
                         req_attestation := Some "attestation-1" |})
                   (log_of (createSubOrgAndWallet Sample.kit
                              Sample.backend_down initialPage))).
  { vm_compute. tauto. }
  split; [exact Hin|].
  destruct (creation_failures_reject_the_handler
              Sample.kit Sample.backend_down initialPage)
    as (_ & _ & Hforward & _).
  exact (Hforward _ (JsError "AxiosError" "Network Error") Hin eq_refl).
Defined.

(** ** Handlers that catch *)

(** X5.  [signMessage] never rejects: a run reports nothing at all, or it
    ends with exactly one console error followed by one alert, both built
    from the error that was thrown, and reports nothing before.  The same
    holds of [login], with one exception: when what it caught is
    [undefined] or [null], reading [toString] of it throws inside the catch
    block, so the handler rejects with that [TypeError] and reports
    nothing. *)
Theorem catching_handlers_report_once
    (kit : AbstractionKit) (cfg : Config) (sv : Services) (p : Page) :
  outcome_of (signMessage kit cfg sv p) = Returned tt
  /\ ((forall ev, In ev (log_of (signMessage kit cfg sv p)) ->
                  is_report ev = false)
      \/ exists pre e,
           log_of (signMessage kit cfg sv p)
           = (pre ++ [EvConsoleError [CStr "Error:"; CThrown e];
                      EvAlert ("Failed to submit user operation: "
                               ++ message_or_string e)])%list
           /\ forall ev, In ev pre -> is_report ev = false)
  /\ ((outcome_of (login kit sv p) = Returned tt
       /\ forall ev, In ev (log_of (login kit sv p)) -> is_report ev = false)
      \/ (outcome_of (login kit sv p) = Returned tt
          /\ exists pre e text,
               toString e = Returned text
               /\ log_of (login kit sv p)
                  = (pre ++ [EvConsoleError [CStr ("caught error: " ++ text)];
                             EvAlert ("caught error: " ++ text)])%list
               /\ forall ev, In ev pre -> is_report ev = false)
      \/ (exists e thrown,
            (e = JsUndefined \/ e = JsNull)
            /\ toString e = Threw thrown
            /\ outcome_of (login kit sv p) = Threw thrown
            /\ forall ev, In ev (log_of (login kit sv p)) ->
                          is_report ev = false)).
Proof.
  split; [ sign_cases p; reflexivity | ].
  split.
  - sign_cases p.
    all: first
      [ left; intros ev H; in_log; reflexivity
      | right;
        match goal with
        | |- exists pre e, ?l = _ /\ _ =>
            exists (firstn (length l - 2) l)
        end;
        eexists; split;
        [ reflexivity | cbn [length Nat.sub firstn]; intros ev H; in_log;
                        reflexivity ] ].
  - run_cases.
    all: try solve
      [ left; split; [ reflexivity | intros ev H; in_log; reflexivity ] ].
    all: try solve
      [ right; left; split; [ reflexivity | ];
        match goal with
        | Et : toString ?e = Returned ?t |- exists pre e' text, _ /\ ?l = _ /\ _ =>
            exists (firstn (length l - 2) l), e, t
        end;
        split; [ assumption | ];
        split;
        [ reflexivity | cbn [length Nat.sub firstn]; intros ev H; in_log;
                        reflexivity ] ].
    all: right; right;
      match goal with
      | Et : toString ?e = Threw ?t |- _ => exists e, t
      end;
      (split;
       [ match goal with
         | Et : toString ?e = Threw _ |- _ =>
             destruct e; try discriminate Et; [ left | right ]; reflexivity
         end
       | ]);
      split; [ assumption | ];
      split; [ reflexivity | intros ev H; in_log; reflexivity ].
Qed.

(** ** Each handler walks its own pipeline *)

(** X6.  In every run of a handler the calls to collaborators are an
    initial segment of that handler's fixed sequence: no call is made
    twice, none out of order, none of another handler's, and whatever else
    is in the log is a state setter or a report.  In particular a run
    submits at most one operation to the relay and posts at most once to
    the backend. *)
Theorem collaborator_calls_are_an_initial_segment
    (kit : AbstractionKit) (cfg : Config) (sv : Services)
    (t : Trigger) (p : Page) :
  (exists k, stages t (snd (handle kit cfg sv t p)) = seq 1 k)
  /\ forall ev,
       In ev (snd (handle kit cfg sv t p)) ->
       is_local ev = true \/ stage_of t ev <> None.
Proof.
  destruct t; cbn [handle snd].
  - run_cases.
    all: split;
      [ match goal with
        | |- exists k, ?s = _ => exists (length s); reflexivity
        end
      | intros ev H; in_log;
        first [ left; reflexivity | right; discriminate ] ].
  - run_cases.
    all: split;
      [ match goal with
        | |- exists k, ?s = _ => exists (length s); reflexivity
        end
      | intros ev H; in_log;
        first [ left; reflexivity | right; discriminate ] ].
  - sign_cases p.
    all: split;
      [ match goal with
        | |- exists k, ?s = _ => exists (length s); reflexivity
        end
      | intros ev H; in_log;
        first [ left; reflexivity | right; discriminate ] ].
Qed.

(** ** What each handler leaves alone *)

(** X7.  [signMessage] never sets the wallet or the smart account, and
    [createSubOrgAndWallet] and [login] never set the tracking handle or
    the transaction hash: whatever the collaborators answer, those fields
    are after the run what they were before. *)
Theorem handlers_keep_the_other_fields
    (kit : AbstractionKit) (cfg : Config) (sv : Services) (p : Page) :
  (wallet (page_of (signMessage kit cfg sv p)) = wallet p
   /\ smartWallet (page_of (signMessage kit cfg sv p)) = smartWallet p
   /\ (forall w, ~ In (EvSetWallet w) (log_of (signMessage kit cfg sv p)))
   /\ (forall s,
         ~ In (EvSetSmartWallet s) (log_of (signMessage kit cfg sv p))))
  /\ (txHash (page_of (createSubOrgAndWallet kit sv p)) = txHash p
      /\ userOpHash (page_of (createSubOrgAndWallet kit sv p)) = userOpHash p
      /\ (forall h,
            ~ In (EvSetTxHash h) (log_of (createSubOrgAndWallet kit sv p)))
      /\ (forall h,
            ~ In (EvSetUserOpHash h)
                 (log_of (createSubOrgAndWallet kit sv p))))
  /\ (txHash (page_of (login kit sv p)) = txHash p
      /\ userOpHash (page_of (login kit sv p)) = userOpHash p
      /\ (forall h, ~ In (EvSetTxHash h) (log_of (login kit sv p)))
      /\ (forall h, ~ In (EvSetUserOpHash h) (log_of (login kit sv p)))).
Proof.
  split; [ | split ].
  - sign_cases p; rewrite ?Ewallet, ?Esmart.
    all: split; [reflexivity|]; split; [reflexivity|].
    all: split; intros x H; in_log.
  - run_cases.
    all: split; [reflexivity|]; split; [reflexivity|].
    all: split; intros x H; in_log.
  - run_cases.
    all: split; [reflexivity|]; split; [reflexivity|].
    all: split; intros x H; in_log.
Qed.

(** ** The wiring of [signMessage] *)

(** The paymaster's answer as operation and metadata. *)
Ltac open_pairs :=
  repeat match goal with
    | x : (UserOperation * option string)%type |- _ => destruct x; cbn [fst] in *
    end.

(** X8.  Every call of a run of [signMessage] is made for the session and
    with the configuration: the viem account is created for the wallet's
    sub-organization and address, the operation is built and sent on the
    session's smart account with the configured node and bundler, the
    paymaster is the configured one with the configured sponsorship policy,
    the EIP-712 rendering is for the configured chain, and the signing
    request is for the primary type [SafeOp] on Sepolia. *)
Theorem signMessage_calls_use_session_and_configuration
    (kit : AbstractionKit) (cfg : Config) (sv : Services) (p : Page)
    (ev : Event) :
  In ev (log_of (signMessage kit cfg sv p)) ->
  match ev with
  | EvCreateAccount organization signWith ethereumAddress =>
      exists w,
        wallet p = Some w
        /\ organization = subOrgId w
        /\ signWith = address w
        /\ ethereumAddress = address w
  | EvCreateUserOperation s txs node bundler =>
      smartWallet p = Some s
      /\ txs = [{| to := zeroAddress; value := 0%Z; data := "0x" |}]
      /\ node = nodeUrl cfg
      /\ bundler = bundlerUrl cfg
  | EvCreateSponsorPaymasterUserOperation rpc _ bundler sponsorship =>
      rpc = paymasterUrl cfg
      /\ bundler = bundlerUrl cfg
      /\ sponsorship = sponsorshipId cfg
  | EvGetUserOperationEip712Data _ chainNumber => chainNumber = chainId cfg
  | EvSignTypedData client _ primaryType =>
      primaryType = "SafeOp" /\ chain client = sepolia
  | EvSendUserOperation s _ bundler =>
      smartWallet p = Some s /\ bundler = bundlerUrl cfg
  | _ => True
  end.
Proof.
  sign_cases p; intros H; in_log.
  all: try exact I.
  all: try (eexists; repeat split; reflexivity).
  all: repeat split; reflexivity.
Qed.

Lemma signMessage_wiring_witness :
  In (EvCreateAccount "org-1" Sample.owner Sample.owner)
     (log_of (signMessage Sample.kit Sample.config Sample.happy
                Sample.session))
  /\ exists w,
       wallet Sample.session = Some w
       /\ "org-1" = subOrgId w
       /\ Sample.owner = address w
       /\ Sample.owner = address w.
Proof.
  assert (Hin : In (EvCreateAccount "org-1" Sample.owner Sample.owner)
                   (log_of (signMessage Sample.kit Sample.config Sample.happy
                              Sample.session))).
  { vm_compute. tauto. }
  split; [exact Hin|].
  exact (signMessage_calls_use_session_and_configuration
           Sample.kit Sample.config Sample.happy Sample.session _ Hin).
Defined.

(** X9.  Every step of a run of [signMessage] consumes what the step before
    produced: the paymaster is given the operation the builder returned,
    the EIP-712 rendering is of the operation the paymaster returned, the
    signing request is made with the account [createAccount] returned and
    for that rendering, the formatter gets exactly the one signature the
    signer returned, and the inclusion wait runs on the response of the
    submission. *)
Theorem signMessage_steps_are_chained
    (kit : AbstractionKit) (cfg : Config) (sv : Services) (p : Page)
    (ev : Event) :
  In ev (log_of (signMessage kit cfg sv p)) ->
  match ev with
  | EvCreateSponsorPaymasterUserOperation _ op _ _ =>
      exists s txs,
        In (EvCreateUserOperation s txs (nodeUrl cfg) (bundlerUrl cfg))
           (log_of (signMessage kit cfg sv p))
        /\ createUserOperation sv s txs (nodeUrl cfg) (bundlerUrl cfg)
           = Returned op
  | EvGetUserOperationEip712Data op _ =>
      exists built metadata,
        In (EvCreateSponsorPaymasterUserOperation (paymasterUrl cfg) built
              (bundlerUrl cfg) (sponsorshipId cfg))
           (log_of (signMessage kit cfg sv p))
        /\ createSponsorPaymasterUserOperation sv (paymasterUrl cfg) built
             (bundlerUrl cfg) (sponsorshipId cfg)
           = Returned (op, metadata)
  | EvSignTypedData client d _ =>
      exists organization signWith ethereumAddress viemAccount op,
        In (EvCreateAccount organization signWith ethereumAddress)
           (log_of (signMessage kit cfg sv p))
        /\ createAccount sv organization signWith ethereumAddress
           = Returned viemAccount
        /\ account client = viemAccount
        /\ In (EvGetUserOperationEip712Data op (chainId cfg))
              (log_of (signMessage kit cfg sv p))
        /\ getUserOperationEip712Data kit op (chainId cfg) = Returned d
  | EvFormatEip712Signatures _ signatures =>
      exists client d eip712Signature,
        In (EvSignTypedData client d "SafeOp")
           (log_of (signMessage kit cfg sv p))
        /\ signTypedData sv client d "SafeOp" = Returned eip712Signature
        /\ signatures = [eip712Signature]
  | EvIncluded response =>
      exists s op,
        In (EvSendUserOperation s op (bundlerUrl cfg))
           (log_of (signMessage kit cfg sv p))
        /\ sendUserOperation sv s op (bundlerUrl cfg) = Returned response
  | _ => True
  end.
Proof.
  sign_cases p; open_pairs; intros H; in_log.
  all: try exact I.
  all: try solve [ do 2 eexists; split; [ find_in_log | eassumption ] ].
  all: try solve
    [ do 5 eexists; split; [ find_in_log | ]; split; [ eassumption | ];
      split; [ reflexivity | ]; split; [ find_in_log | eassumption ] ].
  all: do 3 eexists; split; [ find_in_log | ]; split;
    [ eassumption | reflexivity ].
Qed.

Lemma signMessage_chain_witness :
  In (EvFormatEip712Signatures [Sample.owner] ["0x5161"])
     (log_of (signMessage Sample.kit Sample.config Sample.happy
                Sample.session))
  /\ exists client d eip712Signature,
       In (EvSignTypedData client d "SafeOp")
          (log_of (signMessage Sample.kit Sample.config Sample.happy
                     Sample.session))
       /\ signTypedData Sample.happy client d "SafeOp"
          = Returned eip712Signature
       /\ ["0x5161"] = [eip712Signature].
Proof.
  assert (Hin : In (EvFormatEip712Signatures [Sample.owner] ["0x5161"])
                   (log_of (signMessage Sample.kit Sample.config Sample.happy
                              Sample.session))).
  { vm_compute. tauto. }
  split; [exact Hin|].
  exact (signMessage_steps_are_chained
           Sample.kit Sample.config Sample.happy Sample.session _ Hin).
Defined.

(** ** A failed inclusion wait *)

(** X10.  When the inclusion wait of a run fails, the operation has already
    been submitted and answered: the page keeps the tracking handle of that
    submission, holds no transaction hash, and the failure is alerted. *)
Theorem failed_inclusion_keeps_the_tracking_handle
    (kit : AbstractionKit) (cfg : Config) (sv : Services) (p : Page)
    (response : SendUseroperationResponse) (e : JsThrown) :
  In (EvIncluded response) (log_of (signMessage kit cfg sv p)) ->
  included sv response = Threw e ->
  (exists s op,
     In (EvSendUserOperation s op (bundlerUrl cfg))
        (log_of (signMessage kit cfg sv p))
     /\ sendUserOperation sv s op (bundlerUrl cfg) = Returned response)
  /\ userOpHash (page_of (signMessage kit cfg sv p))
     = userOperationHash response
  /\ txHash (page_of (signMessage kit cfg sv p)) = ""
  /\ shown_txHash (page_of (signMessage kit cfg sv p)) = None
  /\ In (EvAlert ("Failed to submit user operation: " ++ message_or_string e))
        (log_of (signMessage kit cfg sv p)).
Proof.
  intros Hin Hthrew. revert Hin.
  sign_cases p; intros Hin; in_log; try congruence.
  match goal with
  | E : included _ _ = Threw _ |- _ =>
      rewrite E in Hthrew; injection Hthrew as ->
  end.
  split; [ do 2 eexists; split; [ find_in_log | eassumption ] | ].
  split; [ reflexivity | ].
  split; [ reflexivity | ].
  split; [ reflexivity | find_in_log ].
Qed.

Lemma failed_inclusion_witness :
  In (EvIncluded {| userOperationHash := "0xUSEROP" |})
     (log_of (signMessage Sample.kit Sample.config Scenario.inclusion_fails
                Sample.session_after_inclusion))
  /\ shown_userOpHash
       (page_of (signMessage Sample.kit Sample.config Scenario.inclusion_fails
                   Sample.session_after_inclusion)) = Some "0xUSEROP"
  /\ shown_txHash
       (page_of (signMessage Sample.kit Sample.config Scenario.inclusion_fails
                   Sample.session_after_inclusion)) = None
  /\ In (EvAlert "Failed to submit user operation: timed out")
        (log_of (signMessage Sample.kit Sample.config Scenario.inclusion_fails
                   Sample.session_after_inclusion)).
Proof.
  assert (Hin : In (EvIncluded {| userOperationHash := "0xUSEROP" |})
                   (log_of (signMessage Sample.kit Sample.config
                              Scenario.inclusion_fails
                              Sample.session_after_inclusion))).
  { vm_compute. tauto. }
  split; [exact Hin|].
  destruct (failed_inclusion_keeps_the_tracking_handle
              Sample.kit Sample.config Scenario.inclusion_fails
              Sample.session_after_inclusion _
              (JsError "Error" "timed out") Hin eq_refl)
    as (_ & _ & _ & Hshown & Halert).
  split; [reflexivity|]. split; [exact Hshown | exact Halert].
Defined.

(** ** What login stores *)

(** X11.  The wallet that [login] stores is made of the organization the
    passkey login answered, the identifier of the first wallet listed and
    the address of the first account listed for that organization and
    wallet; all three are non-empty.  Further wallets and accounts in the
    listings play no part. *)
Theorem login_stores_first_wallet_and_account
    (kit : AbstractionKit) (sv : Services) (p : Page) (w : TWalletDetails) :
  In (EvSetWallet w) (log_of (login kit sv p)) ->
  id w <> "" /\ address w <> "" /\ subOrgId w <> ""
  /\ exists client tk session wallets accounts,
       passkeyClient sv = Some client
       /\ passkeyLogin client
          = Returned (Some {| organizationId := subOrgId w |})
       /\ turnkey sv = Some tk
       /\ currentUserSession tk = Returned (Some session)
       /\ getWallets session
          = Returned (Some ({| walletId := id w |} :: wallets))
       /\ In (EvGetWalletAccounts (subOrgId w) (id w)) (log_of (login kit sv p))
       /\ getWalletAccounts session (subOrgId w) (id w)
          = Returned (Some ({| acc_address := address w |} :: accounts)).
Proof.
  unfold_handlers.
  destruct (passkeyClient sv) as [client|] eqn:Eclient; reduce_deep;
    [ | intros H; in_log ].
  destruct (passkeyLogin client) as [[[organization]|]|e] eqn:Elogin;
    reduce_deep; try (split_outcomes; intros H; in_log; fail).
  destruct (truthy organization) eqn:Eorganization; reduce_deep;
    [ | intros H; in_log ].
  destruct (turnkey sv) as [tk|] eqn:Etk; reduce_deep;
    [ | intros H; in_log ].
  destruct (currentUserSession tk) as [[session|]|e] eqn:Esession;
    reduce_deep; try (split_outcomes; intros H; in_log; fail).
  destruct (getWallets session) as [[[|[first] wallets]|]|e] eqn:Ewallets;
    reduce_deep; try (split_outcomes; intros H; in_log; fail).
  destruct (truthy first) eqn:Efirst; reduce_deep;
    [ | intros H; in_log ].
  destruct (getWalletAccounts session organization first)
    as [[[|[account] accounts]|]|e] eqn:Eaccounts;
    reduce_deep; try (split_outcomes; intros H; in_log; fail).
  destruct (truthy account) eqn:Eaccount; reduce_deep;
    [ | intros H; in_log ].
  split_outcomes; intros H; in_log.
  all: cbn [id address subOrgId].
  all: split; [ now apply truthy_nonempty | ].
  all: split; [ now apply truthy_nonempty | ].
  all: split; [ now apply truthy_nonempty | ].
  all: exists client, tk, session, wallets, accounts.
  all: split; [ reflexivity | ]; split; [ exact Elogin | ].
  all: split; [ reflexivity | ]; split; [ exact Esession | ].
  all: split; [ exact Ewallets | ]; split; [ find_in_log | exact Eaccounts ].
Qed.

Lemma login_stores_witness :
  In (EvSetWallet Sample.details)
     (log_of (login Sample.kit Scenario.two_wallets initialPage))
  /\ exists client tk session wallets accounts,
       passkeyClient Scenario.two_wallets = Some client
       /\ passkeyLogin client = Returned (Some {| organizationId := "org-1" |})
       /\ turnkey Scenario.two_wallets = Some tk
       /\ currentUserSession tk = Returned (Some session)
       /\ getWallets session
          = Returned (Some ({| walletId := "wallet-1" |} :: wallets))
       /\ In (EvGetWalletAccounts "org-1" "wallet-1")
             (log_of (login Sample.kit Scenario.two_wallets initialPage))
       /\ getWalletAccounts session "org-1" "wallet-1"
          = Returned (Some ({| acc_address := Sample.owner |} :: accounts)).
Proof.
  assert (Hin : In (EvSetWallet Sample.details)
                   (log_of (login Sample.kit Scenario.two_wallets
                              initialPage))).
  { vm_compute. tauto. }
  split; [exact Hin|].
  exact (proj2 (proj2 (proj2 (login_stores_first_wallet_and_account
                                Sample.kit Scenario.two_wallets initialPage
                                Sample.details Hin)))).
Defined.

(** X12.  When the first wallet listed has an empty identifier, [login]
    stops in silence after the wallet listing, without asking for accounts,
    whatever other wallets the listing holds. *)
Theorem login_stops_at_an_unnamed_first_wallet
    (kit : AbstractionKit) (sv : Services) (p : Page) (client : PasskeyClient)
    (tk : Turnkey) (session : UserSession) (organization : string)
    (first : Wallet) (others : list Wallet) :
  passkeyClient sv = Some client ->
  passkeyLogin client = Returned (Some {| organizationId := organization |}) ->
  truthy organization = true ->
  turnkey sv = Some tk ->
  currentUserSession tk = Returned (Some session) ->
  getWallets session = Returned (Some (first :: others)) ->
  walletId first = "" ->
  login kit sv p
  = (Returned tt, p, [EvLogin; EvCurrentUserSession; EvGetWallets]).
Proof.
  intros Hclient Hlogin Horg Htk Hsession Hwallets Hid.
  unfold_handlers. rewrite Hclient. reduce_run. rewrite Hlogin. reduce_run.
  cbn [organizationId]. rewrite Horg, Htk. reduce_run.
  rewrite Hsession. reduce_run. rewrite Hwallets. reduce_run.
  cbn [first_walletId]. rewrite Hid. reflexivity.
Qed.

Lemma login_unnamed_wallet_witness :
  login Sample.kit Scenario.first_wallet_unnamed initialPage
  = (Returned tt, initialPage, [EvLogin; EvCurrentUserSession; EvGetWallets]).
Proof.
  exact (login_stops_at_an_unnamed_first_wallet
           Sample.kit Scenario.first_wallet_unnamed initialPage
           _ _ _ "org-1" {| walletId := "" |} [{| walletId := "wallet-2" |}]
           eq_refl eq_refl eq_refl eq_refl eq_refl eq_refl eq_refl).
Defined.

(** ** Which failure is reported *)

Ltac with_failing_call :=
  match goal with
  | E : createAccount _ ?o ?s ?a = Threw ?e |- _ =>
      exists (EvCreateAccount o s a), e
  | E : createUserOperation _ ?s ?t ?n ?b = Threw ?e |- _ =>
      exists (EvCreateUserOperation s t n b), e
  | E : createSponsorPaymasterUserOperation _ ?r ?o ?b ?s = Threw ?e |- _ =>
      exists (EvCreateSponsorPaymasterUserOperation r o b s), e
  | E : getUserOperationEip712Data _ ?o ?c = Threw ?e |- _ =>
      exists (EvGetUserOperationEip712Data o c), e
  | E : signTypedData _ ?c ?d ?t = Threw ?e |- _ =>
      exists (EvSignTypedData c d t), e
  | E : formatEip712SignaturesToUseroperationSignature _ ?o ?s = Threw ?e
    |- _ =>
      exists (EvFormatEip712Signatures o s), e
  | E : sendUserOperation _ ?s ?o ?b = Threw ?e |- _ =>
      exists (EvSendUserOperation s o b), e
  | E : included _ ?r = Threw ?e |- _ =>
      exists (EvIncluded r), e
  end.

(** X17.  Whatever a run of [signMessage] alerts is the failure at which it
    stopped: either the session had no wallet or no smart account, no
    collaborator was called and the alert says "wallet not found"; or the
    alert carries the message of the error thrown by the last collaborator
    call of the run, the calls before it having all been made in order. *)
Theorem signMessage_alerts_the_step_that_failed
    (kit : AbstractionKit) (cfg : Config) (sv : Services) (p : Page)
    (text : string) :
  In (EvAlert text) (log_of (signMessage kit cfg sv p)) ->
  ((wallet p = None \/ smartWallet p = None)
   /\ text = "Failed to submit user operation: wallet not found"
   /\ stages SubmitSign (log_of (signMessage kit cfg sv p)) = [])
  \/ exists ev e k,
       In ev (log_of (signMessage kit cfg sv p))
       /\ threw kit sv ev e
       /\ text = "Failed to submit user operation: " ++ message_or_string e
       /\ stage_of SubmitSign ev = Some k
       /\ stages SubmitSign (log_of (signMessage kit cfg sv p)) = seq 1 k.
Proof.
  sign_cases p; intros H; in_log.
  all: try solve
    [ left; split; [ first [ left; reflexivity | right; reflexivity ] | ];
      split; reflexivity ].
  all: right; with_failing_call; eexists;
    split; [ find_in_log | ];
    split; [ cbn [threw]; assumption | ];
    split; [ reflexivity | ];
    split; reflexivity.
Qed.

Lemma alerted_step_witness :
  In (EvAlert "Failed to submit user operation: policy rejected")
     (log_of (signMessage Sample.kit Sample.config Sample.sponsorship_denied
                Sample.session))
  /\ exists ev e k,
       In ev (log_of (signMessage Sample.kit Sample.config
                        Sample.sponsorship_denied Sample.session))
       /\ threw Sample.kit Sample.sponsorship_denied ev e
       /\ "Failed to submit user operation: policy rejected"
          = "Failed to submit user operation: " ++ message_or_string e
       /\ stage_of SubmitSign ev = Some k
       /\ stages SubmitSign
            (log_of (signMessage Sample.kit Sample.config
                       Sample.sponsorship_denied Sample.session))
          = seq 1 k.
Proof.
  assert (Hin : In (EvAlert "Failed to submit user operation: policy rejected")
                   (log_of (signMessage Sample.kit Sample.config
                              Sample.sponsorship_denied Sample.session))).
  { vm_compute. tauto. }
  split; [exact Hin|].
  destruct (signMessage_alerts_the_step_that_failed
              Sample.kit Sample.config Sample.sponsorship_denied
              Sample.session _ Hin) as [(Hnone & _) | Hstep].
  - destruct Hnone as [Hnone | Hnone]; discriminate Hnone.
  - exact Hstep.
Defined.

(** ** Witnesses of the login and creation lemmas *)

Lemma login_no_accounts_witness :
  getWalletAccounts
    (Sample.user_session (Some [{| walletId := "wallet-1" |}]) (Some []))
    "org-1" "wallet-1" = Returned (Some [])
  /\ In (EvAlert ("caught error: TypeError: "
                  ++ "Cannot read properties of undefined (reading 'address')"))
        (log_of (login Sample.kit Sample.no_accounts initialPage))
  /\ page_of (login Sample.kit Sample.no_accounts initialPage) = initialPage.
Proof.
  split; [reflexivity|].
  exact (login_with_no_accounts_alerts Sample.kit Sample.no_accounts
           initialPage _ _ _ "org-1" {| walletId := "wallet-1" |} []
           eq_refl eq_refl eq_refl eq_refl eq_refl eq_refl eq_refl eq_refl).
Defined.

Lemma quiet_login_witness :
  (forall text,
     ~ In (EvAlert text) (log_of (login Sample.kit Sample.no_session
                                    initialPage)))
  /\ page_of (login Sample.kit Sample.no_session initialPage) = initialPage
  /\ forall ev,
       In ev (log_of (login Sample.kit Sample.no_session initialPage)) ->
       is_lookup ev = true.
Proof.
  assert (Hquiet : forall text,
             ~ In (EvAlert text)
                  (log_of (login Sample.kit Sample.no_session initialPage))).
  { intros text H. vm_compute in H. intuition discriminate. }
  split; [exact Hquiet|].
  destruct (login_without_alert_changes_nothing_or_logs_in
              Sample.kit Sample.no_session initialPage Hquiet)
    as [Hsilent | [(w & derived & Hpage) | (w & e & thrown & _ & _ & _ & Hpage)]].
  - exact Hsilent.
  - discriminate Hpage.
  - discriminate Hpage.
Defined.

Lemma login_all_or_nothing_witness :
  (forall owners,
     In (EvInitializeNewAccount owners)
        (log_of (login Sample.strict_kit Sample.happy initialPage)) ->
     exists s, initializeNewAccount Sample.strict_kit owners = Returned s)
  /\ exists w s,
       page_of (login Sample.strict_kit Sample.happy initialPage)
       = with_session initialPage (Some w) (Some s)
       /\ forall text,
            ~ In (EvAlert text)
                 (log_of (login Sample.strict_kit Sample.happy initialPage)).
Proof.
  assert (Hreturns : forall owners,
             In (EvInitializeNewAccount owners)
                (log_of (login Sample.strict_kit Sample.happy initialPage)) ->
             exists s,
               initializeNewAccount Sample.strict_kit owners = Returned s).
  { intros owners H. vm_compute in H.
    destruct H as [H | [H | [H | [H | [H | [H | [H | H]]]]]]];
      try discriminate H; try contradiction.
    injection H as <-. eexists. reflexivity. }
  split; [exact Hreturns|].
  destruct (login_all_or_nothing_when_derivation_returns
              Sample.strict_kit Sample.happy initialPage Hreturns)
    as [(Hpage & _) | Hboth].
  - discriminate Hpage.
  - exact Hboth.
Defined.

(** ** Overlapping runs *)

(** Landing the setters of a run of [signMessage] one after the other,
    with nothing in between, gives the page the run leaves. *)
Lemma later_setters_replay (kit : AbstractionKit) (cfg : Config)
    (sv : Services) (p : Page) :
  replay (later_setters kit cfg sv p)
    (replay [EvSetTxHash ""; EvSetUserOpHash ""] p)
  = page_of (signMessage kit cfg sv p).
Proof.
  unfold later_setters.
  sign_cases p; unfold replay;
    cbn [skipn filter is_setter fold_left apply_event
         wallet smartWallet txHash userOpHash];
    rewrite ?Ewallet, ?Esmart; reflexivity.
Qed.

(** A run submitted without wallet or smart account has no later setter. *)
Lemma later_setters_need_a_session (kit : AbstractionKit) (cfg : Config)
    (sv : Services) (p : Page) :
  wallet p = None \/ smartWallet p = None ->
  later_setters kit cfg sv p = [].
Proof.
  unfold later_setters.
  sign_cases p; intros [H | H]; try discriminate H; reflexivity.
Qed.

Lemma apply_event_keeps_session_complete (p : Page) (ev : Event) :
  session_complete p -> session_complete (apply_event p ev).
Proof.
  intros (w & s & Hw & Hs).
  destruct ev; cbn; unfold session_complete; cbn; eauto.
Qed.

Lemma in_flight_after_landing (x y : InFlight) (before after : list InFlight) :
  In y (before ++ after)%list -> In y (before ++ x :: after)%list.
Proof.
  intros H. apply in_app_or in H. apply in_or_app.
  destruct H as [H | H]; [left | right; right]; exact H.
Qed.

(** While the session is incomplete, both results are empty and no run of
    [signMessage] in flight has a setter left to call. *)
Lemma incomplete_session_has_no_results (kit : AbstractionKit) (cfg : Config)
    (t : Tab) :
  tab_reachable kit cfg t ->
  session_complete (fst t)
  \/ (txHash (fst t) = "" /\ userOpHash (fst t) = ""
      /\ forall pending, In (SignInFlight pending) (snd t) -> pending = []).
Proof.
  induction 1 as [| t t' Hreach IH Hstep].
  - right. cbn. split; [reflexivity|]. split; [reflexivity|].
    intros pending H. destruct H.
  - destruct Hstep as
      [ sv p flying Hforms | sv p flying Hforms | sv p flying Hform
      | sv p before after | sv p before after
      | ev pending p before after ];
      cbn [fst snd] in *.
    + destruct IH as [IH | (Htx & Hop & Hpending)]; [left; exact IH|].
      right. split; [exact Htx|]. split; [exact Hop|].
      intros pending [H | H]; [discriminate H | exact (Hpending _ H)].
    + destruct IH as [IH | (Htx & Hop & Hpending)]; [left; exact IH|].
      right. split; [exact Htx|]. split; [exact Hop|].
      intros pending [H | H]; [discriminate H | exact (Hpending _ H)].
    + destruct IH as [IH | (Htx & Hop & Hpending)].
      * left. destruct IH as (w & s & Hw & Hs).
        exists w, s. cbn. split; assumption.
      * destruct (wallet p) as [w|] eqn:Ew.
        -- destruct (smartWallet p) as [s|] eqn:Es.
           ++ left. exists w, s. cbn. split; assumption.
           ++ right. cbn. split; [reflexivity|]. split; [reflexivity|].
              intros pending [H | H]; [ | exact (Hpending _ H) ].
              injection H as <-.
              apply later_setters_need_a_session. right. exact Es.
        -- right. cbn. split; [reflexivity|]. split; [reflexivity|].
           intros pending [H | H]; [ | exact (Hpending _ H) ].
           injection H as <-.
           apply later_setters_need_a_session. left. exact Ew.
    + destruct (createSubOrgAndWallet_effect kit sv p)
        as [(Hpage & _) | (pre & body & response & derived
                           & _ & _ & _ & Hpage & _)];
        rewrite Hpage.
      * destruct IH as [IH | (Htx & Hop & Hpending)]; [left; exact IH|].
        right. split; [exact Htx|]. split; [exact Hop|].
        intros pending H. apply (Hpending pending).
        apply in_flight_after_landing. exact H.
      * left. exists response, derived. split; reflexivity.
    + destruct (login_effect kit sv p)
        as [(Hpage & _)
           | [(pre & w & derived & _ & Hpage & _)
             | (w & e & _ & Hpage & _)]];
        rewrite Hpage.
      * destruct IH as [IH | (Htx & Hop & Hpending)]; [left; exact IH|].
        right. split; [exact Htx|]. split; [exact Hop|].
        intros pending H. apply (Hpending pending).
        apply in_flight_after_landing. exact H.
      * left. exists w, derived. split; reflexivity.
      * destruct IH as [(w0 & s0 & Hw0 & Hs0) | (Htx & Hop & Hpending)].
        -- left. exists w, s0. split; [reflexivity | exact Hs0].
        -- right. split; [exact Htx|]. split; [exact Hop|].
           intros pending H. apply (Hpending pending).
           apply in_flight_after_landing. exact H.
    + destruct IH as [IH | (_ & _ & Hpending)].
      * left. now apply apply_event_keeps_session_complete.
      * exfalso.
        assert (Hin : In (SignInFlight (ev :: pending))
                         (before ++ SignInFlight (ev :: pending) :: after)%list)
          by (apply in_or_app; right; left; reflexivity).
        discriminate (Hpending _ Hin).
Qed.

(** X13.  Whatever runs overlap and in whatever order their setters land, a
    tracking handle or a transaction hash is on screen only when the
    session has both a wallet and a smart account. *)
Theorem results_are_shown_only_with_a_full_session
    (kit : AbstractionKit) (cfg : Config) (p : Page)
    (flying : list InFlight) (h : string) :
  tab_reachable kit cfg (p, flying) ->
  shown_userOpHash p = Some h \/ shown_txHash p = Some h ->
  exists w s, wallet p = Some w /\ smartWallet p = Some s.
Proof.
  intros Hreach Hshown.
  destruct (incomplete_session_has_no_results kit cfg (p, flying) Hreach)
    as [Hcomplete | (Htx & Hop & _)]; [exact Hcomplete|].
  cbn in Htx, Hop.
  unfold shown_userOpHash, shown_txHash in Hshown.
  rewrite Htx, Hop in Hshown. cbn in Hshown.
  destruct Hshown as [H | H]; discriminate H.
Qed.

Lemma results_shown_witness :
  tab_reachable Sample.kit Sample.config
    ({| wallet := Some Sample.details;
        smartWallet := Some (Sample.safe_of [Sample.owner]);
        txHash := ""; userOpHash := "0xUSEROP" |},
     [SignInFlight [EvSetTxHash "0xTX"]])
  /\ shown_userOpHash
       {| wallet := Some Sample.details;
          smartWallet := Some (Sample.safe_of [Sample.owner]);
          txHash := ""; userOpHash := "0xUSEROP" |} = Some "0xUSEROP"
  /\ exists w s,
       Some Sample.details = Some w
       /\ Some (Sample.safe_of [Sample.owner]) = Some s.
Proof.
  assert (Hreach : tab_reachable Sample.kit Sample.config
                     ({| wallet := Some Sample.details;
                         smartWallet := Some (Sample.safe_of [Sample.owner]);
                         txHash := ""; userOpHash := "0xUSEROP" |},
                      [SignInFlight [EvSetTxHash "0xTX"]])).
  { eapply tab_next.
    - eapply tab_next.
      + eapply tab_next.
        * eapply tab_next; [ apply tab_loaded | ].
          exact (submit_create Sample.kit Sample.config Sample.happy
                   initialPage [] eq_refl).
        * exact (land_create Sample.kit Sample.config Sample.happy
                   initialPage [] []).
      + exact (submit_sign Sample.kit Sample.config Sample.happy
                 Sample.session [] eq_refl).
    - exact (land_setter Sample.kit Sample.config
               (EvSetUserOpHash "0xUSEROP") [EvSetTxHash "0xTX"]
               {| wallet := Some Sample.details;
                  smartWallet := Some (Sample.safe_of [Sample.owner]);
                  txHash := ""; userOpHash := "" |} [] []). }
  split; [exact Hreach|]. split; [reflexivity|].
  exact (results_are_shown_only_with_a_full_session
           Sample.kit Sample.config _ _ "0xUSEROP" Hreach
           (or_introl eq_refl)).
Defined.

(** X22.  The session is not fixed once it is set.  Two logins can both be
    submitted while the form is rendered and land one after the other; when
    the second one stores a wallet and its derivation throws, the wallet of
    the first login is replaced while the smart account of the first login
    stays. *)
Theorem overlapping_logins_replace_the_wallet_only
    (kit : AbstractionKit) (cfg : Config) (sv1 sv2 : Services)
    (w2 : TWalletDetails) (e : JsThrown) :
  In (EvSetWallet w2)
     (log_of (login kit sv2 (page_of (login kit sv1 initialPage)))) ->
  initializeNewAccount kit [address w2] = Threw e ->
  tab_reachable kit cfg
    (page_of (login kit sv2 (page_of (login kit sv1 initialPage))), [])
  /\ wallet (page_of (login kit sv2 (page_of (login kit sv1 initialPage))))
     = Some w2
  /\ smartWallet
       (page_of (login kit sv2 (page_of (login kit sv1 initialPage))))
     = smartWallet (page_of (login kit sv1 initialPage)).
Proof.
  intros Hset Hthrew.
  split.
  - eapply tab_next.
    + eapply tab_next.
      * eapply tab_next.
        -- eapply tab_next; [ apply tab_loaded | ].
           exact (submit_login kit cfg sv2 initialPage [] eq_refl).
        -- exact (submit_login kit cfg sv1 initialPage
                    [LoginInFlight sv2] eq_refl).
      * exact (land_login kit cfg sv1 initialPage [] [LoginInFlight sv2]).
    + exact (land_login kit cfg sv2 (page_of (login kit sv1 initialPage))
               [] []).
  - set (p1 := page_of (login kit sv1 initialPage)) in *.
    destruct (login_effect kit sv2 p1)
      as [(_ & Hnone & _)
         | [(pre & w & derived & Hderive & _ & Hlog & Hpre)
           | (w & e' & _ & Hpage & Hset' & Hnone & _)]].
    + destruct (Hnone w2 Hset).
    + exfalso. rewrite Hlog in Hset. apply in_app_or in Hset.
      destruct Hset as [Hset | Hset].
      * apply Hpre in Hset. discriminate Hset.
      * in_log. congruence.
    + assert (w = w2) as ->.
      { revert Hset Hset' Hnone. generalize p1. clear.
        intros p1. run_cases; intros Hset Hset' Hnone.
        all: in_log; try reflexivity.
        all: exfalso; eapply Hnone; find_in_log. }
      rewrite Hpage. split; reflexivity.
Qed.

Lemma overlapping_logins_witness :
  In (EvSetWallet {| id := "wallet-1"; address := Sample.foreign_address;
                     subOrgId := "org-1" |})
     (log_of (login Sample.strict_kit Sample.foreign_account
                (page_of (login Sample.strict_kit Sample.happy initialPage))))
  /\ tab_reachable Sample.strict_kit Sample.config
       (page_of (login Sample.strict_kit Sample.foreign_account
                   (page_of (login Sample.strict_kit Sample.happy
                               initialPage))), [])
  /\ wallet (page_of (login Sample.strict_kit Sample.foreign_account
                        (page_of (login Sample.strict_kit Sample.happy
                                    initialPage))))
     = Some {| id := "wallet-1"; address := Sample.foreign_address;
               subOrgId := "org-1" |}
  /\ smartWallet (page_of (login Sample.strict_kit Sample.foreign_account
                             (page_of (login Sample.strict_kit Sample.happy
                                         initialPage))))
     = Some (Sample.safe_of [Sample.owner]).
Proof.
  assert (Hset : In (EvSetWallet
                       {| id := "wallet-1"; address := Sample.foreign_address;
                          subOrgId := "org-1" |})
                    (log_of (login Sample.strict_kit Sample.foreign_account
                               (page_of (login Sample.strict_kit Sample.happy
                                           initialPage))))).
  { vm_compute. tauto. }
  split; [exact Hset|].
  exact (overlapping_logins_replace_the_wallet_only
           Sample.strict_kit Sample.config Sample.happy Sample.foreign_account
           _ (JsError "Error" "invalid address") Hset eq_refl).
Defined.
